(** * The UDP / ROS bridge of [src/main.cpp]

    [UdpServer] relays JSON envelopes between a UDP socket and two ROS
    topics.  The class is embedded as a record of its fields together with
    the observable effects of its handlers (messages handed to [pub_],
    datagrams handed to [async_send_to], whether an [async_receive_from] is
    outstanding).

    The program uses two libraries that are not part of the repository:
    - jsoncpp ([Json::Value], [Json::Reader], [Json::FastWriter]).  The
      accessors of [Json::Value] that [handleReceive] calls are modelled in
      [Module Json].  The handlers are written over an arbitrary reader and
      writer ([Section Bridge]); [Module FastWriter] and [Module Reader]
      give a model of the two classes (jsoncpp 1.7 behaviour, default
      features) that is used where a property depends on the text itself.
    - boost.asio: an asynchronous receive stores the datagram in the buffer
      and the sender in the endpoint it was given, then calls the handler.
      The model describes the handlers as they run when an operation
      completes ([deliver]); that [main] only spins the ROS queue and
      leaves the dispatch of [io_service_] to nobody is outside it.
*)

From Stdlib Require Import String Ascii List Bool ZArith NArith Lia.
From Stdlib Require Import DecimalString.
Import ListNotations.

Local Open Scope string_scope.
Set Warnings "-register-all".

(** ** Bytes and strings

    A [std::string] is a sequence of bytes: [string] over 8-bit [ascii]. *)

Definition dquote : ascii := "034"%char.
Definition backslash : ascii := "092"%char.
Definition slash : ascii := "/"%char.
Definition char_b : ascii := "008"%char.
Definition char_f : ascii := "012"%char.
Definition char_n : ascii := "010"%char.
Definition char_r : ascii := "013"%char.
Definition char_t : ascii := "009"%char.

Definition byte (c : ascii) : Z := Z.of_N (N_of_ascii c).
Definition char_of (z : Z) : ascii := ascii_of_N (Z.to_N (z mod 256)).

(** [std::string(p, n)]: the first [n] bytes at [p]. *)
Fixpoint take (n : nat) (s : string) : string :=
  match n, s with
  | S n', String c s' => String c (take n' s')
  | _, _ => EmptyString
  end.

Fixpoint drop (n : nat) (s : string) : string :=
  match n, s with
  | S n', String _ s' => drop n' s'
  | _, _ => s
  end.

(** ** Exceptions

    jsoncpp reports a violated precondition by throwing [Json::LogicError]
    ([JSON_ASSERT_MESSAGE], [JSON_FAIL_MESSAGE]).  Nothing in [main.cpp]
    catches it. *)

Inductive exn : Type :=
| LogicError (what : string).

Inductive result (A : Type) : Type :=
| Ok (a : A)
| Throw (e : exn).
Arguments Ok {A} a.
Arguments Throw {A} e.

Definition bind {A B} (r : result A) (k : A -> result B) : result B :=
  match r with
  | Ok a => k a
  | Throw e => Throw e
  end.

Notation "x <- r ;; k" := (bind r (fun x => k))
  (at level 61, r at next level, right associativity).

(** [a && b] of C++: [b] is evaluated only when [a] is true. *)
Definition andthen (a : result bool) (b : result bool) : result bool :=
  x <- a ;; if x then b else Ok false.

(** ** Json::Value *)

Module Json.

(** The value kinds of [Json::ValueType].  A [double] is kept as the text
    [valueToString] prints for it, the only observation this program makes
    of one.  An object is a [std::map] ordered by key: its members are kept
    as an association list in key order. *)
Inductive Value : Type :=
| nullValue
| intValue (n : Z)
| uintValue (n : Z)
| realValue (printed : string)
| stringValue (s : string)
| booleanValue (b : bool)
| arrayValue (elems : list Value)
| objectValue (members : list (string * Value)).

Fixpoint find (key : string) (m : list (string * Value)) : option Value :=
  match m with
  | [] => None
  | (k, v) :: m' => if String.eqb key k then Some v else find key m'
  end.

(** [map[key] = v]: replaces the member [key] or inserts it at its place in
    the key order (bytewise lexicographic, as [CZString::operator<]). *)
Fixpoint insert (key : string) (v : Value) (m : list (string * Value))
  : list (string * Value) :=
  match m with
  | [] => [(key, v)]
  | (k, w) :: m' =>
      if String.eqb key k then (key, v) :: m'
      else if String.ltb key k then (key, v) :: (k, w) :: m'
      else (k, w) :: insert key v m'
  end.

(** [Value::isMember(key)]: requires [objectValue] or [nullValue]. *)
Definition isMember (v : Value) (key : string) : result bool :=
  match v with
  | nullValue => Ok false
  | objectValue m =>
      Ok (match find key m with Some _ => true | None => false end)
  | _ => Throw (LogicError
           "in Json::Value::find(key, end, found): requires objectValue or nullValue")
  end.

(** [Value::operator[](key)] on a non-const value: requires [objectValue]
    or [nullValue]; an absent member is created as [nullValue].  The
    creation changes only the local [json] of [handleReceive], which is
    read no further, so the model returns the member. *)
Definition subscript (v : Value) (key : string) : result Value :=
  match v with
  | nullValue => Ok nullValue
  | objectValue m =>
      Ok (match find key m with Some w => w | None => nullValue end)
  | _ => Throw (LogicError
           "in Json::Value::resolveReference(key, end): requires objectValue")
  end.

(** [valueToString] of an integer: its decimal digits. *)
Definition valueToString (n : Z) : string :=
  NilZero.string_of_int (Z.to_int n).

(** [Value::asString()]. *)
Definition asString (v : Value) : result string :=
  match v with
  | nullValue => Ok ""
  | stringValue s => Ok s
  | booleanValue b => Ok (if b then "true" else "false")
  | intValue n => Ok (valueToString n)
  | uintValue n => Ok (valueToString n)
  | realValue printed => Ok printed
  | arrayValue _ | objectValue _ =>
      Throw (LogicError "Type is not convertible to string")
  end.

End Json.

(** ** Json::FastWriter *)

Module FastWriter.
Import Json.

(** [isControlCharacter]: [ch > 0 && ch <= 0x1F] on a (signed) [char]. *)
Definition isControlCharacter (c : ascii) : bool :=
  (0 <? byte c)%Z && (byte c <=? 31)%Z.

Definition hexDigit (d : Z) : ascii :=
  if (d <? 10)%Z then char_of (48 + d) else char_of (55 + d).

(** The stream output of a backslash, [u] and [n] as four upper-case
    hexadecimal digits ([hex], [uppercase], [setfill] of zero, [setw(4)]). *)
Definition unicodeEscape (n : Z) : string :=
  String backslash (String "u"
    (String (hexDigit (n / 4096 mod 16)) (String (hexDigit (n / 256 mod 16))
    (String (hexDigit (n / 16 mod 16)) (String (hexDigit (n mod 16)) ""))))).

(** One turn of the escaping loop of [valueToQuotedStringN]. *)
Definition escapeChar (c : ascii) : string :=
  if Ascii.eqb c dquote then String backslash (String dquote "")
  else if Ascii.eqb c backslash then String backslash (String backslash "")
  else if Ascii.eqb c char_b then String backslash "b"
  else if Ascii.eqb c char_f then String backslash "f"
  else if Ascii.eqb c char_n then String backslash "n"
  else if Ascii.eqb c char_r then String backslash "r"
  else if Ascii.eqb c char_t then String backslash "t"
  else if isControlCharacter c || (byte c =? 0)%Z then unicodeEscape (byte c)
  else String c "".

Fixpoint escapeAll (value : string) : string :=
  match value with
  | EmptyString => ""
  | String c rest => escapeChar c ++ escapeAll rest
  end.

(** The test that guards the fast path: none of the seven characters that
    have a short escape ([strnpbrk]) and no control character or NUL
    ([containsControlCharacter0]). *)
Fixpoint needsEscape (value : string) : bool :=
  match value with
  | EmptyString => false
  | String c rest =>
      Ascii.eqb c dquote || Ascii.eqb c backslash || Ascii.eqb c char_b
      || Ascii.eqb c char_f || Ascii.eqb c char_n || Ascii.eqb c char_r
      || Ascii.eqb c char_t || isControlCharacter c || (byte c =? 0)%Z
      || needsEscape rest
  end.

Definition valueToQuotedString (value : string) : string :=
  if needsEscape value
  then String dquote (escapeAll value ++ String dquote "")
  else String dquote (value ++ String dquote "").

(** [FastWriter::writeValue], appending to [document_]. *)
Fixpoint writeValue (value : Value) : string :=
  match value with
  | nullValue => "null"
  | intValue n => valueToString n
  | uintValue n => valueToString n
  | realValue printed => printed
  | stringValue s => valueToQuotedString s
  | booleanValue b => if b then "true" else "false"
  | arrayValue elems =>
      let fix elements (first : bool) (l : list Value) : string :=
        match l with
        | [] => ""
        | v :: l' =>
            (if first then "" else ",") ++ writeValue v ++ elements false l'
        end in
      "[" ++ elements true elems ++ "]"
  | objectValue members =>
      let fix pairs (first : bool) (l : list (string * Value)) : string :=
        match l with
        | [] => ""
        | (name, v) :: l' =>
            (if first then "" else ",") ++ valueToQuotedString name ++ ":"
            ++ writeValue v ++ pairs false l'
        end in
      "{" ++ pairs true members ++ "}"
  end.

(** [FastWriter::write]: the document and an ending line feed. *)
Definition write (root : Value) : string :=
  writeValue root ++ String char_n "".

End FastWriter.

(** ** Json::Reader *)

Module Reader.
Import Json.

Inductive Token : Type :=
| tokenEndOfStream
| tokenObjectBegin
| tokenObjectEnd
| tokenArrayBegin
| tokenArrayEnd
| tokenString (raw : string)
| tokenNumber (text : string)
| tokenTrue
| tokenFalse
| tokenNull
| tokenArraySeparator
| tokenMemberSeparator
| tokenComment
| tokenError.

Definition isDigit (c : ascii) : bool :=
  (48 <=? byte c)%Z && (byte c <=? 57)%Z.

Definition isSpace (c : ascii) : bool :=
  Ascii.eqb c " " || Ascii.eqb c char_t || Ascii.eqb c char_r
  || Ascii.eqb c char_n.

Fixpoint skipSpaces (s : string) : string :=
  match s with
  | String c s' => if isSpace c then skipSpaces s' else s
  | EmptyString => s
  end.

(** [readString], entered after the opening quote: the text up to the
    closing quote (a character after a backslash is passed over) and what
    follows it. *)
Fixpoint readString (s : string) : option (string * string) :=
  match s with
  | EmptyString => None
  | String c s' =>
      if Ascii.eqb c backslash then
        match s' with
        | EmptyString => None
        | String e s'' =>
            match readString s'' with
            | Some (raw, rest) => Some (String c (String e raw), rest)
            | None => None
            end
        end
      else if Ascii.eqb c dquote then Some (EmptyString, s')
      else
        match readString s' with
        | Some (raw, rest) => Some (String c raw, rest)
        | None => None
        end
  end.

(** [readCStyleComment], entered after the opening slash and star. *)
Fixpoint readCStyleComment (s : string) : option string :=
  match s with
  | EmptyString => None
  | String c s' =>
      match s' with
      | EmptyString => if Ascii.eqb c slash then Some EmptyString else None
      | String d rest =>
          if Ascii.eqb c "*" && Ascii.eqb d slash then Some rest
          else readCStyleComment s'
      end
  end.

Fixpoint readCppStyleComment (s : string) : string :=
  match s with
  | EmptyString => s
  | String c s' =>
      if Ascii.eqb c char_n then s'
      else if Ascii.eqb c char_r then
        match s' with
        | String d rest => if Ascii.eqb d char_n then rest else s'
        | EmptyString => s'
        end
      else readCppStyleComment s'
  end.

Definition readComment (s : string) : option string :=
  match s with
  | String c s' =>
      if Ascii.eqb c "*" then readCStyleComment s'
      else if Ascii.eqb c slash then Some (readCppStyleComment s')
      else None
  | EmptyString => None
  end.

Fixpoint spanDigits (s : string) : string * string :=
  match s with
  | String c s' =>
      if isDigit c then let (ds, rest) := spanDigits s' in (String c ds, rest)
      else (EmptyString, s)
  | EmptyString => (EmptyString, s)
  end.

(** [readNumber], entered after the first character [c0] of the token:
    digits, an optional fraction, an optional exponent. *)
Definition readNumber (c0 : ascii) (s : string) : string * string :=
  let (int_part, s1) := spanDigits s in
  let (frac, s2) :=
    match s1 with
    | String c s1' =>
        if Ascii.eqb c "." then
          let (ds, rest) := spanDigits s1' in (String c ds, rest)
        else (EmptyString, s1)
    | EmptyString => (EmptyString, s1)
    end in
  let (expo, s3) :=
    match s2 with
    | String c s2' =>
        if Ascii.eqb c "e" || Ascii.eqb c "E" then
          let (sign, s2'') :=
            match s2' with
            | String d rest =>
                if Ascii.eqb d "+" || Ascii.eqb d "-"
                then (String d EmptyString, rest) else (EmptyString, s2')
            | EmptyString => (EmptyString, s2')
            end in
          let (ds, rest) := spanDigits s2'' in (String c (sign ++ ds), rest)
        else (EmptyString, s2)
    | EmptyString => (EmptyString, s2)
    end in
  (String c0 (int_part ++ frac ++ expo), s3).

(** [match(pattern, n)]: the next characters are [pattern]. *)
Fixpoint matchPattern (pattern s : string) : option string :=
  match pattern, s with
  | EmptyString, _ => Some s
  | String p pattern', String c s' =>
      if Ascii.eqb p c then matchPattern pattern' s' else None
  | String _ _, EmptyString => None
  end.

(** [readToken]: the next token and the text after it.  A NUL character
    reads as the end of the stream, as [getNextChar] returns NUL there. *)
Definition readToken (s : string) : Token * string :=
  match skipSpaces s with
  | EmptyString => (tokenEndOfStream, EmptyString)
  | String c s' =>
      if Ascii.eqb c "{" then (tokenObjectBegin, s')
      else if Ascii.eqb c "}" then (tokenObjectEnd, s')
      else if Ascii.eqb c "[" then (tokenArrayBegin, s')
      else if Ascii.eqb c "]" then (tokenArrayEnd, s')
      else if Ascii.eqb c dquote then
        match readString s' with
        | Some (raw, rest) => (tokenString raw, rest)
        | None => (tokenError, EmptyString)
        end
      else if Ascii.eqb c slash then
        match readComment s' with
        | Some rest => (tokenComment, rest)
        | None => (tokenError, s')
        end
      else if isDigit c || Ascii.eqb c "-" then
        let (text, rest) := readNumber c s' in (tokenNumber text, rest)
      else if Ascii.eqb c "t" then
        match matchPattern "rue" s' with
        | Some rest => (tokenTrue, rest)
        | None => (tokenError, s')
        end
      else if Ascii.eqb c "f" then
        match matchPattern "alse" s' with
        | Some rest => (tokenFalse, rest)
        | None => (tokenError, s')
        end
      else if Ascii.eqb c "n" then
        match matchPattern "ull" s' with
        | Some rest => (tokenNull, rest)
        | None => (tokenError, s')
        end
      else if Ascii.eqb c "," then (tokenArraySeparator, s')
      else if Ascii.eqb c ":" then (tokenMemberSeparator, s')
      else if (byte c =? 0)%Z then (tokenEndOfStream, s')
      else (tokenError, s')
  end.

(** [skipCommentTokens] with comments allowed: read tokens until one is
    not a comment.  Every comment takes at least two characters. *)
Fixpoint skipCommentLoop (fuel : nat) (s : string) : Token * string :=
  match readToken s with
  | (tokenComment, rest) =>
      match fuel with
      | O => (tokenError, rest)
      | S fuel' => skipCommentLoop fuel' rest
      end
  | other => other
  end.

Definition skipCommentTokens (s : string) : Token * string :=
  skipCommentLoop (String.length s) s.

(** [decodeUnicodeEscapeSequence]: four hexadecimal digits. *)
Definition hexValue (c : ascii) : option Z :=
  let n := byte c in
  if (48 <=? n)%Z && (n <=? 57)%Z then Some (n - 48)%Z
  else if (97 <=? n)%Z && (n <=? 102)%Z then Some (n - 97 + 10)%Z
  else if (65 <=? n)%Z && (n <=? 70)%Z then Some (n - 65 + 10)%Z
  else None.

Definition decodeUnicodeEscapeSequence (s : string) : option (Z * string) :=
  match s with
  | String c1 (String c2 (String c3 (String c4 rest))) =>
      match hexValue c1, hexValue c2, hexValue c3, hexValue c4 with
      | Some h1, Some h2, Some h3, Some h4 =>
          Some ((((h1 * 16 + h2) * 16 + h3) * 16 + h4)%Z, rest)
      | _, _, _, _ => None
      end
  | _ => None
  end.

(** [decodeUnicodeCodePoint]: one escape sequence, or two for a surrogate
    pair. *)
Definition decodeUnicodeCodePoint (s : string) : option (Z * string) :=
  match decodeUnicodeEscapeSequence s with
  | None => None
  | Some (unicode, rest) =>
      if (55296 <=? unicode)%Z && (unicode <=? 56319)%Z then
        match rest with
        | String b (String u rest') =>
            if Ascii.eqb b backslash && Ascii.eqb u "u" then
              match decodeUnicodeEscapeSequence rest' with
              | Some (surrogatePair, rest'') =>
                  Some ((65536 + Z.shiftl (Z.land unicode 1023) 10
                         + Z.land surrogatePair 1023)%Z, rest'')
              | None => None
              end
            else None
        | _ => None
        end
      else Some (unicode, rest)
  end.

Definition codePointToUTF8 (cp : Z) : string :=
  if (cp <=? 127)%Z then String (char_of cp) ""
  else if (cp <=? 2047)%Z then
    String (char_of (Z.lor 192 (Z.land 31 (Z.shiftr cp 6))))
      (String (char_of (Z.lor 128 (Z.land 63 cp))) "")
  else if (cp <=? 65535)%Z then
    String (char_of (Z.lor 224 (Z.land 15 (Z.shiftr cp 12))))
      (String (char_of (Z.lor 128 (Z.land 63 (Z.shiftr cp 6))))
        (String (char_of (Z.lor 128 (Z.land 63 cp))) ""))
  else if (cp <=? 1114111)%Z then
    String (char_of (Z.lor 240 (Z.land 7 (Z.shiftr cp 18))))
      (String (char_of (Z.lor 128 (Z.land 63 (Z.shiftr cp 12))))
        (String (char_of (Z.lor 128 (Z.land 63 (Z.shiftr cp 6))))
          (String (char_of (Z.lor 128 (Z.land 63 cp))) "")))
  else "".

(** The loop of [decodeString] over the text between the quotes.  Every
    turn takes at least one character, so the length of the text bounds the
    number of turns. *)
Fixpoint decodeLoop (fuel : nat) (current : string) : option string :=
  match fuel with
  | O => None
  | S fuel' =>
      match current with
      | EmptyString => Some EmptyString
      | String c current' =>
          if Ascii.eqb c dquote then Some EmptyString
          else if Ascii.eqb c backslash then
            match current' with
            | EmptyString => None
            | String escape current'' =>
                let plain (d : ascii) :=
                  option_map (String d) (decodeLoop fuel' current'') in
                if Ascii.eqb escape dquote then plain dquote
                else if Ascii.eqb escape slash then plain slash
                else if Ascii.eqb escape backslash then plain backslash
                else if Ascii.eqb escape "b" then plain char_b
                else if Ascii.eqb escape "f" then plain char_f
                else if Ascii.eqb escape "n" then plain char_n
                else if Ascii.eqb escape "r" then plain char_r
                else if Ascii.eqb escape "t" then plain char_t
                else if Ascii.eqb escape "u" then
                  match decodeUnicodeCodePoint current'' with
                  | Some (unicode, rest) =>
                      option_map (append (codePointToUTF8 unicode))
                        (decodeLoop fuel' rest)
                  | None => None
                  end
                else None
            end
          else option_map (String c) (decodeLoop fuel' current')
      end
  end.

Definition decodeString (raw : string) : option string :=
  decodeLoop (S (String.length raw)) raw.

Fixpoint digitsValue (acc : Z) (s : string) : option Z :=
  match s with
  | EmptyString => Some acc
  | String c s' =>
      if isDigit c then digitsValue (acc * 10 + (byte c - 48))%Z s' else None
  end.

Definition maxInt : Z := 2147483647.
Definition maxLargestInt : Z := 9223372036854775807.
Definition maxLargestUInt : Z := 18446744073709551615.

Section Parse.

(** The conversion of a number token to a [double] goes through the C++
    stream library; it is a parameter, giving the text the double prints
    as. *)
Variable decodeDouble : string -> option string.

(** [decodeNumber]: an integer when the token is an optional minus sign
    and digits whose value fits ([Int64] when negative, [UInt64]
    otherwise), a double in every other case. *)
Definition decodeNumber (text : string) : option Value :=
  let asDouble := option_map realValue (decodeDouble text) in
  match text with
  | EmptyString => asDouble
  | String c digits =>
      let isNegative := Ascii.eqb c "-" in
      match digitsValue 0 (if isNegative then digits else text) with
      | None => asDouble
      | Some value =>
          if isNegative then
            if (value <=? maxLargestInt + 1)%Z then Some (intValue (- value))
            else asDouble
          else if (value <=? maxInt)%Z then Some (intValue value)
          else if (value <=? maxLargestUInt)%Z then Some (uintValue value)
          else asDouble
      end
  end.

(** [readValue], [readObject] (its loop, with the last member name and the
    members read so far) and [readArray] (its loop).  A result is the value
    and the text after it; [None] is the [false] of the C++ functions.
    [fuel] bounds the number of nested and successive values, each of which
    takes at least one character. *)
Fixpoint readValue (fuel : nat) (s : string) : option (Value * string) :=
  match fuel with
  | O => None
  | S fuel' =>
      match skipCommentTokens s with
      | (tokenObjectBegin, s1) => readObject fuel' EmptyString [] s1
      | (tokenArrayBegin, s1) =>
          match skipSpaces s1 with
          | String c s2 =>
              if Ascii.eqb c "]" then Some (arrayValue [], s2)
              else readArray fuel' [] s1
          | EmptyString => readArray fuel' [] s1
          end
      | (tokenNumber text, s1) =>
          option_map (fun v => (v, s1)) (decodeNumber text)
      | (tokenString raw, s1) =>
          option_map (fun d => (stringValue d, s1)) (decodeString raw)
      | (tokenTrue, s1) => Some (booleanValue true, s1)
      | (tokenFalse, s1) => Some (booleanValue false, s1)
      | (tokenNull, s1) => Some (nullValue, s1)
      | _ => None
      end
  end

with readObject (fuel : nat) (name : string) (members : list (string * Value))
       (s : string) : option (Value * string) :=
  match fuel with
  | O => None
  | S fuel' =>
      match skipCommentTokens s with
      | (tokenObjectEnd, s1) =>
          if String.eqb name EmptyString then Some (objectValue members, s1)
          else None
      | (tokenString raw, s1) =>
          match decodeString raw with
          | None => None
          | Some name' =>
              match readToken s1 with
              | (tokenMemberSeparator, s2) =>
                  match readValue fuel' s2 with
                  | None => None
                  | Some (v, s3) =>
                      let members' := insert name' v members in
                      match readToken s3 with
                      | (tokenObjectEnd, s4) => Some (objectValue members', s4)
                      | (tokenArraySeparator, s4) =>
                          readObject fuel' name' members' s4
                      | (tokenComment, s4) =>
                          match skipCommentTokens s4 with
                          | (tokenObjectEnd, s5) =>
                              Some (objectValue members', s5)
                          | (_, s5) => readObject fuel' name' members' s5
                          end
                      | _ => None
                      end
                  end
              | _ => None
              end
          end
      | _ => None
      end
  end

with readArray (fuel : nat) (elems : list Value) (s : string)
  : option (Value * string) :=
  match fuel with
  | O => None
  | S fuel' =>
      match readValue fuel' s with
      | None => None
      | Some (v, s1) =>
          match skipCommentTokens s1 with
          | (tokenArrayEnd, s2) => Some (arrayValue (elems ++ [v]), s2)
          | (tokenArraySeparator, s2) => readArray fuel' (elems ++ [v]) s2
          | _ => None
          end
      end
  end.

(** [Reader::parse(document, root)]: [Some root] when it returns [true].
    What follows the root value is not looked at. *)
Definition parse (document : string) : option Value :=
  match readValue (S (String.length document)) document with
  | Some (root, _) => Some root
  | None => None
  end.

End Parse.

End Reader.

(** ** UdpServer *)

Import Json.

(** A [udp::endpoint]: an IPv4 address and a port.  The default
    constructor gives the unspecified address and port 0. *)
Record endpoint : Type := mkEndpoint { address : Z; port : Z }.

Definition default_endpoint : endpoint := mkEndpoint 0 0.

(** [enum { max_length = 1024 }]. *)
Definition max_length : nat := 1024.

(** Lines written with [ROS_INFO] and [ROS_ERROR]. *)
Inductive logline : Type :=
| InfoHeard (data : string)
| InfoReceived (data : string)
| ErrorReceiving (error : Z)
| InfoSent (bytes_sent : nat)
| ErrorSending (error : Z).

(** The fields of the class that the handlers read and write, and what the
    handlers have done so far: [receive_pending] says that an
    [async_receive_from] is outstanding on [socket_] (it fills [data_] and
    [sender_endpoint_] when it completes); [published] lists the messages
    handed to [pub_] (topic [/chatter]), [sent] the [async_send_to] calls
    with their destination, [log] the ROS log, all oldest first. *)
Record UdpServer : Type := mkUdpServer {
  sender_endpoint_ : endpoint;
  data_ : string;
  receive_pending : bool;
  published : list string;
  sent : list (string * endpoint);
  log : list logline
}.

Definition ros_log (s : UdpServer) (l : logline) : UdpServer :=
  mkUdpServer (sender_endpoint_ s) (data_ s) (receive_pending s)
    (published s) (sent s) (log s ++ [l]).

(** [pub_.publish(ros_msg)]. *)
Definition publish (s : UdpServer) (data : string) : UdpServer :=
  mkUdpServer (sender_endpoint_ s) (data_ s) (receive_pending s)
    (published s ++ [data]) (sent s) (log s).

(** [receivePacket]: starts the asynchronous receive. *)
Definition receivePacket (s : UdpServer) : UdpServer :=
  mkUdpServer (sender_endpoint_ s) (data_ s) true
    (published s) (sent s) (log s).

(** [sendPacket]: starts the asynchronous send of [data] to
    [sender_endpoint_]. *)
Definition sendPacket (s : UdpServer) (data : string) : UdpServer :=
  mkUdpServer (sender_endpoint_ s) (data_ s) (receive_pending s)
    (published s) (sent s ++ [(data, sender_endpoint_ s)]) (log s).

(** [handleSend]. *)
Definition handleSend (s : UdpServer) (error : Z) (bytes_sent : nat)
  : UdpServer :=
  if (error =? 0)%Z && (0 <? bytes_sent)%nat
  then ros_log s (InfoSent bytes_sent)
  else ros_log s (ErrorSending error).

(** The constructor: [sender_endpoint_] is default-constructed, [data_] is
    not initialised (it holds [garbage]), and [receivePacket] is called. *)
Definition UdpServer_init (garbage : string) : UdpServer :=
  receivePacket (mkUdpServer default_endpoint garbage false [] [] []).

(** The wire message, as the spec names its parts. *)
Record Envelope : Type := mkEnvelope {
  op : string;
  topic : string;
  type : string;
  payload_data : string
}.

Inductive DecodeFailure : Type :=
| MalformedJSON
| MissingField.

(** The [Json::Value] that [listenerCallback] builds by four assignments,
    for a topic and a type ([listenerCallback] uses [/listener] and
    [std_msgs/String]). *)
Definition envelope (topic type data : string) : Value :=
  objectValue
    (insert "type" (stringValue type)
      (insert "msg" (objectValue (insert "data" (stringValue data) []))
        (insert "topic" (stringValue topic)
          (insert "op" (stringValue "publish") [])))).

(** The test of line 82. *)
Definition route_matches (op topic type : string) : bool :=
  String.eqb op "publish" && String.eqb topic "/chatter"
  && String.eqb type "std_msgs/String".

Section Bridge.

(** [Json::Reader::parse] ([Some json] when it returns [true]) and
    [Json::FastWriter::write]. *)
Variable parse : string -> option Value.
Variable write : Value -> string.

Definition encode (topic type data : string) : string :=
  write (envelope topic type data).

(** [listenerCallback]. *)
Definition listenerCallback (s : UdpServer) (msg_data : string) : UdpServer :=
  let s := ros_log s (InfoHeard msg_data) in
  let data := encode "/listener" "std_msgs/String" msg_data in
  sendPacket s data.

(** The condition of line 75. *)
Definition has_members (json : Value) : result bool :=
  andthen (isMember json "op")
    (andthen (isMember json "topic")
      (andthen (isMember json "msg") (isMember json "type"))).

Definition member_string (json : Value) (key : string) : result string :=
  v <- subscript json key ;; asString v.

(** [json["msg"]["data"].asString()]. *)
Definition msg_data_string (json : Value) : result string :=
  m <- subscript json "msg" ;; member_string m "data".

(** [handleReceive]. *)
Definition handleReceive (s : UdpServer) (error : Z) (bytes_recvd : nat)
  : result UdpServer :=
  if (error =? 0)%Z && (0 <? bytes_recvd)%nat then
    let data := take bytes_recvd (data_ s) in
    s' <- match parse data with
          | Some json =>
              present <- has_members json ;;
              if present then
                op <- member_string json "op" ;;
                topic <- member_string json "topic" ;;
                type <- member_string json "type" ;;
                if route_matches op topic type then
                  msg <- msg_data_string json ;;
                  Ok (publish (ros_log s (InfoReceived msg)) msg)
                else Ok s
              else Ok s
          | None => Ok s
          end ;;
    Ok (receivePacket s')
  else Ok (ros_log s (ErrorReceiving error)).

(** The decoding steps of [handleReceive] (lines 72 to 85) as the one
    function the spec calls [decode]: the parse, the membership test and
    the four conversions to strings. *)
Definition decode (bytes : string) : result (DecodeFailure + Envelope) :=
  match parse bytes with
  | None => Ok (inl MalformedJSON)
  | Some json =>
      present <- has_members json ;;
      if present then
        op <- member_string json "op" ;;
        topic <- member_string json "topic" ;;
        type <- member_string json "type" ;;
        data <- msg_data_string json ;;
        Ok (inr (mkEnvelope op topic type data))
      else Ok (inl MissingField)
  end.

(** What reaches the object from outside: a datagram from [from] arrives on
    the socket, the receive fails with an error code, a send completes, or
    the bus delivers a message on [/listener]. *)
Inductive event : Type :=
| Datagram (payload : string) (from : endpoint)
| ReceiveFailed (error : Z)
| SendDone (error : Z) (bytes_sent : nat)
| BusMessage (data : string).

(** The completion of the outstanding receive: the datagram, cut to the
    size of the buffer, is in [data_], its sender in [sender_endpoint_],
    and [handleReceive] runs.  Without an outstanding receive nothing of
    the datagram reaches the object. *)
Definition deliver (s : UdpServer) (payload : string) (from : endpoint)
  : result UdpServer :=
  if receive_pending s then
    let n := Nat.min (String.length payload) max_length in
    handleReceive
      (mkUdpServer from (take n payload ++ drop n (data_ s)) false
         (published s) (sent s) (log s))
      0 n
  else Ok s.

(** The completion of the outstanding receive with an error: nothing was
    transferred. *)
Definition fail_receive (s : UdpServer) (error : Z) : result UdpServer :=
  if receive_pending s then
    handleReceive
      (mkUdpServer (sender_endpoint_ s) (data_ s) false
         (published s) (sent s) (log s))
      error 0
  else Ok s.

Definition step (s : UdpServer) (e : event) : result UdpServer :=
  match e with
  | Datagram payload from => deliver s payload from
  | ReceiveFailed error => fail_receive s error
  | SendDone error bytes_sent => Ok (handleSend s error bytes_sent)
  | BusMessage data => Ok (listenerCallback s data)
  end.

(** A run of events; an exception that leaves a handler ends it. *)
Fixpoint run (s : UdpServer) (events : list event) : result UdpServer :=
  match events with
  | [] => Ok s
  | e :: events' => s' <- step s e ;; run s' events'
  end.

End Bridge.

(** ** Inputs for the scenarios of the spec *)

(** JSON texts are written with apostrophes where the text has double
    quotes; [json_text] puts the double quotes in. *)
Fixpoint json_text (s : string) : string :=
  match s with
  | EmptyString => EmptyString
  | String c s' =>
      String (if Ascii.eqb c "'" then dquote else c) (json_text s')
  end.

(** A reader for examples: it takes no token as a [double]. *)
Definition no_double (_ : string) : option string := None.

Definition peerA : endpoint := mkEndpoint 3232235777 40000.
Definition peerB : endpoint := mkEndpoint 167772165 50123.

Definition scenario1 : string :=
  json_text
    "{'op':'publish','topic':'/chatter','msg':{'data':'hello'},'type':'std_msgs/String'}".

Definition scenario3 : string :=
  json_text
    "{'op':'publish','topic':'/other','msg':{'data':'x'},'type':'std_msgs/String'}".

Definition no_msg : string :=
  json_text "{'op':'publish','topic':'/chatter','type':'std_msgs/String'}".

Definition no_data : string :=
  json_text "{'op':'publish','topic':'/chatter','msg':{},'type':'std_msgs/String'}".

Definition op_delete : string :=
  json_text
    "{'op':'delete','topic':'/chatter','msg':{'data':'x'},'type':'std_msgs/String'}".

Definition msg_string : string :=
  json_text
    "{'op':'publish','topic':'/chatter','msg':'x','type':'std_msgs/String'}".

Definition msg_number : string :=
  json_text
    "{'op':'publish','topic':'/chatter','msg':5,'type':'std_msgs/String'}".

Definition data_number : string :=
  json_text
    "{'op':'publish','topic':'/chatter','msg':{'data':5},'type':'std_msgs/String'}".

Definition server0 : UdpServer := UdpServer_init EmptyString.

(** The object when the receive has completed with [bytes] from [from]
    and [handleReceive] is about to run. *)
Definition received (bytes : string) (from : endpoint) : UdpServer :=
  mkUdpServer from bytes false [] [] [].

(** The object after [not json] from [peerA], and after [scenario1] from
    [peerB]. *)
Definition after_A : UdpServer :=
  mkUdpServer peerA "not json" true [] [] [].

Definition after_B : UdpServer :=
  mkUdpServer peerB scenario1 true ["hello"] [] [InfoReceived "hello"].

(** A run in which a datagram arrives between two bus messages, and the
    object after it. *)
Definition relay_events : list event :=
  [BusMessage "a"; Datagram scenario1 peerA; BusMessage "b"].

Definition after_relay : UdpServer :=
  mkUdpServer peerA scenario1 true ["hello"]
    [(FastWriter.write (envelope "/listener" "std_msgs/String" "a"),
      default_endpoint);
     (FastWriter.write (envelope "/listener" "std_msgs/String" "b"), peerA)]
    [InfoHeard "a"; InfoReceived "hello"; InfoHeard "b"].

(** ** Observations on runs *)

(** The data of the messages the bus delivers in a run, in order. *)
Fixpoint bus_data (events : list event) : list string :=
  match events with
  | [] => []
  | BusMessage data :: events' => data :: bus_data events'
  | _ :: events' => bus_data events'
  end.

(** The senders of the datagrams of a run. *)
Fixpoint senders (events : list event) : list endpoint :=
  match events with
  | [] => []
  | Datagram _ from :: events' => from :: senders events'
  | _ :: events' => senders events'
  end.

(** An event that completes no receive. *)
Definition quiet (e : event) : bool :=
  match e with
  | Datagram _ _ | ReceiveFailed _ => false
  | SendDone _ _ | BusMessage _ => true
  end.

(** A run without its send completions. *)
Fixpoint without_send_done (events : list event) : list event :=
  match events with
  | [] => []
  | SendDone _ _ :: events' => without_send_done events'
  | e :: events' => e :: without_send_done events'
  end.

(** Two objects that differ at most in their log. *)
Definition same_but_log (a b : UdpServer) : Prop :=
  sender_endpoint_ a = sender_endpoint_ b /\ data_ a = data_ b
  /\ receive_pending a = receive_pending b /\ published a = published b
  /\ sent a = sent b.

(** Two outcomes that agree but for the log. *)
Definition agree_but_log (x y : result UdpServer) : Prop :=
  match x, y with
  | Ok a, Ok b => same_but_log a b
  | Throw e1, Throw e2 => e1 = e2
  | _, _ => False
  end.

(** An event after which the receive loop goes on, unless the handler
    throws: a datagram that is not empty, a send completion, a bus
    message. *)
Definition keeps_receiving (e : event) : bool :=
  match e with
  | Datagram EmptyString _ => false
  | Datagram (String _ _) _ => true
  | ReceiveFailed _ => false
  | SendDone _ _ | BusMessage _ => true
  end.

(** An event other than the arrival of a datagram. *)
Definition no_datagram (e : event) : bool :=
  match e with
  | Datagram _ _ => false
  | ReceiveFailed _ | SendDone _ _ | BusMessage _ => true
  end.

(** Whether a datagram addressed to [dest] can reach a peer.  A peer is at
    an endpoint with a port; a send to port 0, as in the
    default-constructed endpoint, is refused by the socket layer (the send
    fails and [handleSend] gets the error). *)
Definition reaches_peer (dest : endpoint) : bool :=
  negb (port dest =? 0)%Z.

(** Of the sends that were started, those that reach a peer. *)
Definition transmitted (sends : list (string * endpoint))
  : list (string * endpoint) :=
  filter (fun send => reaches_peer (snd send)) sends.

(** A JSON value that [asString] converts. *)
Definition convertible (v : Value) : bool :=
  match v with
  | arrayValue _ | objectValue _ => false
  | _ => true
  end.

(** * Properties *)

(** ** Strings *)

Lemma append_assoc (a b c : string) : (a ++ b) ++ c = a ++ (b ++ c).
Proof. induction a as [|x a IH]; simpl; [reflexivity | now rewrite IH]. Qed.

Lemma length_append (a b : string) :
  String.length (a ++ b) = String.length a + String.length b.
Proof. induction a as [|x a IH]; simpl; [reflexivity | now rewrite IH]. Qed.

Lemma take_append (a b : string) : take (String.length a) (a ++ b) = a.
Proof. induction a as [|x a IH]; simpl; [now destruct b | now rewrite IH]. Qed.

Lemma take_all (a : string) : take (String.length a) a = a.
Proof. induction a as [|x a IH]; simpl; [reflexivity | now rewrite IH]. Qed.

Lemma take_length (n : nat) (a : string) :
  String.length (take n a) = Nat.min n (String.length a).
Proof.
  revert a; induction n as [|n IH]; intros [|x a]; simpl; try reflexivity.
  now rewrite IH.
Qed.

(** ** The writer and the reader on strings *)

Module Codec.
Import FastWriter Reader.

Ltac each_char c := destruct c as [[] [] [] [] [] [] [] []].

Lemma escapeAll_plain (s : string) : needsEscape s = false -> escapeAll s = s.
Proof.
  induction s as [|c s IH]; simpl; intros H; [reflexivity|].
  repeat (apply orb_false_iff in H; destruct H as [H ?]).
  unfold escapeChar.
  repeat match goal with E : _ = false |- _ => rewrite E; clear E end.
  simpl. now rewrite IH.
Qed.

(** The fast path and the escaping loop of [valueToQuotedStringN] write the
    same text. *)
Lemma valueToQuotedString_eq (s : string) :
  valueToQuotedString s = String dquote (escapeAll s ++ String dquote "").
Proof.
  unfold valueToQuotedString.
  destruct (needsEscape s) eqn:E; [reflexivity|].
  now rewrite (escapeAll_plain s E).
Qed.

Lemma readString_escapeChar (c : ascii) (t : string) :
  readString (escapeChar c ++ t) =
  match readString t with
  | Some (raw, rest) => Some (escapeChar c ++ raw, rest)
  | None => None
  end.
Proof.
  each_char c; cbn; destruct (readString t) as [[raw rest]|]; reflexivity.
Qed.

Lemma readString_escapeAll (s rest : string) :
  readString (escapeAll s ++ String dquote rest) = Some (escapeAll s, rest).
Proof.
  induction s as [|c s IH]; [reflexivity|].
  cbn [escapeAll]. rewrite append_assoc, readString_escapeChar, IH.
  reflexivity.
Qed.

Lemma decodeLoop_escapeChar (c : ascii) (t : string) (fuel : nat) :
  decodeLoop (S fuel) (escapeChar c ++ t) =
  option_map (String c) (decodeLoop fuel t).
Proof.
  each_char c; cbn; destruct (decodeLoop fuel t) as [d|]; reflexivity.
Qed.

Lemma escapeChar_length (c : ascii) : 1 <= String.length (escapeChar c).
Proof. each_char c; cbv; lia. Qed.

Lemma decodeLoop_escapeAll (s : string) (fuel : nat) :
  String.length (escapeAll s) < fuel -> decodeLoop fuel (escapeAll s) = Some s.
Proof.
  revert fuel; induction s as [|c s IH]; intros [|fuel] H; try lia.
  - reflexivity.
  - cbn [escapeAll] in *. rewrite decodeLoop_escapeChar.
    rewrite length_append in H. pose proof (escapeChar_length c).
    rewrite IH by lia. reflexivity.
Qed.

Lemma decodeString_escapeAll (s : string) : decodeString (escapeAll s) = Some s.
Proof. unfold decodeString. apply decodeLoop_escapeAll. lia. Qed.

Lemma readToken_quoted (s rest : string) :
  readToken (valueToQuotedString s ++ rest) = (tokenString (escapeAll s), rest).
Proof.
  rewrite valueToQuotedString_eq. cbn [append].
  rewrite append_assoc. cbn [append].
  unfold readToken. cbn. now rewrite readString_escapeAll.
Qed.

Lemma skipCommentLoop_token (fuel : nat) (s : string) :
  fst (readToken s) <> tokenComment -> skipCommentLoop fuel s = readToken s.
Proof.
  intros H. destruct fuel; cbn [skipCommentLoop];
    destruct (readToken s) as [[] r]; cbn in H; congruence.
Qed.

Lemma skipCommentTokens_quoted (s rest : string) :
  skipCommentTokens (valueToQuotedString s ++ rest) = (tokenString (escapeAll s), rest).
Proof.
  unfold skipCommentTokens. rewrite skipCommentLoop_token.
  - apply readToken_quoted.
  - rewrite readToken_quoted. discriminate.
Qed.


Section Envelope.

Variable decodeDouble : string -> option string.

Lemma readValue_quoted (fuel : nat) (s rest : string) :
  readValue decodeDouble (S fuel) (valueToQuotedString s ++ rest) = Some (stringValue s, rest).
Proof.
  cbn [readValue]. rewrite skipCommentTokens_quoted, decodeString_escapeAll.
  reflexivity.
Qed.

Lemma readValue_brace (fuel : nat) (x : string) :
  readValue decodeDouble (S fuel) (String "{" x) =
  readObject decodeDouble fuel EmptyString [] x.
Proof. reflexivity. Qed.

(** One member of an object that is followed by a comma. *)
Lemma readObject_member_more fuel name members key v rest rest' :
  readValue decodeDouble fuel rest = Some (v, String "," rest') ->
  readObject decodeDouble (S fuel) name members (valueToQuotedString key ++ String ":" rest) =
  readObject decodeDouble fuel key (insert key v members) rest'.
Proof.
  intros H. cbn [readObject].
  rewrite skipCommentTokens_quoted, decodeString_escapeAll.
  change (readToken (String ":" rest)) with (tokenMemberSeparator, rest).
  cbv iota beta. rewrite H.
  change (readToken (String "," rest')) with (tokenArraySeparator, rest').
  reflexivity.
Qed.

(** The last member of an object. *)
Lemma readObject_member_last fuel name members key v rest rest' :
  readValue decodeDouble fuel rest = Some (v, String "}" rest') ->
  readObject decodeDouble (S fuel) name members (valueToQuotedString key ++ String ":" rest) =
  Some (objectValue (insert key v members), rest').
Proof.
  intros H. cbn [readObject].
  rewrite skipCommentTokens_quoted, decodeString_escapeAll.
  change (readToken (String ":" rest)) with (tokenMemberSeparator, rest).
  cbv iota beta. rewrite H.
  change (readToken (String "}" rest')) with (tokenObjectEnd, rest').
  reflexivity.
Qed.

Lemma envelope_members (topic type data : string) :
  envelope topic type data =
  objectValue [("msg", objectValue [("data", stringValue data)]);
               ("op", stringValue "publish");
               ("topic", stringValue topic);
               ("type", stringValue type)].
Proof. reflexivity. Qed.

(** The text [FastWriter] writes for an envelope: the members in key
    order, no blanks. *)
Lemma writeValue_envelope (topic type data rest : string) :
  writeValue (envelope topic type data) ++ rest =
  String "{" (valueToQuotedString "msg" ++ String ":" (String "{" (valueToQuotedString "data" ++
    String ":" (valueToQuotedString data ++ String "}" (String "," (valueToQuotedString "op" ++
    String ":" (valueToQuotedString "publish" ++ String "," (valueToQuotedString "topic" ++
    String ":" (valueToQuotedString topic ++ String "," (valueToQuotedString "type" ++
    String ":" (valueToQuotedString type ++ String "}" rest))))))))))).
Proof.
  rewrite envelope_members. cbn [writeValue append].
  repeat (rewrite ?append_assoc; cbn [append]). reflexivity.
Qed.

Lemma readValue_envelope (fuel : nat) (topic type data rest : string) :
  readValue decodeDouble (S (S (S (S (S (S fuel))))))
    (writeValue (envelope topic type data) ++ rest) =
  Some (envelope topic type data, rest).
Proof.
  rewrite writeValue_envelope.
  rewrite readValue_brace.
  erewrite readObject_member_more.
  2:{ rewrite readValue_brace.
      apply readObject_member_last. apply readValue_quoted. }
  erewrite readObject_member_more by apply readValue_quoted.
  erewrite readObject_member_more by apply readValue_quoted.
  erewrite readObject_member_last by apply readValue_quoted.
  reflexivity.
Qed.

Lemma writeValue_envelope_length (topic type data rest : string) :
  exists n,
    String.length (writeValue (envelope topic type data) ++ rest) = 5 + n.
Proof.
  rewrite writeValue_envelope, (valueToQuotedString_eq "msg").
  eexists. cbn. reflexivity.
Qed.

(** [Reader::parse] reads back what [FastWriter::write] wrote for an
    envelope. *)
Lemma parse_write_envelope (topic type data : string) :
  parse decodeDouble (write (envelope topic type data)) =
  Some (envelope topic type data).
Proof.
  unfold parse, write.
  destruct (writeValue_envelope_length topic type data (String char_n ""))
    as [n ->].
  cbn [Nat.add]. rewrite readValue_envelope. reflexivity.
Qed.

End Envelope.

End Codec.

(** ** The handlers *)

Section Handlers.

Variable parse : string -> option Value.
Variable write : Value -> string.

Lemma handleReceive_ok (s : UdpServer) (n : nat) :
  0 < n ->
  handleReceive parse s 0 n =
  (s' <- match parse (take n (data_ s)) with
         | Some json =>
             present <- has_members json ;;
             if present then
               op <- member_string json "op" ;;
               topic <- member_string json "topic" ;;
               type <- member_string json "type" ;;
               if route_matches op topic type then
                 msg <- msg_data_string json ;;
                 Ok (publish (ros_log s (InfoReceived msg)) msg)
               else Ok s
             else Ok s
         | None => Ok s
         end ;;
   Ok (receivePacket s')).
Proof.
  intros H. unfold handleReceive.
  destruct n as [|n]; [lia | reflexivity].
Qed.

(** [handleReceive] leaves the endpoint, the buffer and the sends as they
    are. *)
Lemma handleReceive_frame (s s' : UdpServer) (error : Z) (n : nat) :
  handleReceive parse s error n = Ok s' ->
  sender_endpoint_ s' = sender_endpoint_ s /\ data_ s' = data_ s
  /\ sent s' = sent s.
Proof.
  unfold handleReceive.
  destruct ((error =? 0)%Z && (0 <? n)%nat).
  2:{ intros [= <-]. auto. }
  destruct (parse (take n (data_ s))) as [json|]; cbn [bind].
  2:{ intros [= <-]. auto. }
  destruct (has_members json) as [[]|]; cbn [bind]; try discriminate.
  2:{ intros [= <-]. auto. }
  destruct (member_string json "op") as [o|]; cbn [bind]; try discriminate.
  destruct (member_string json "topic") as [t|]; cbn [bind]; try discriminate.
  destruct (member_string json "type") as [ty|]; cbn [bind]; try discriminate.
  destruct (route_matches o t ty).
  2:{ intros [= <-]. auto. }
  destruct (msg_data_string json) as [d|]; cbn [bind]; try discriminate.
  intros [= <-]. auto.
Qed.

Lemma route_matches_iff (o t ty : string) :
  route_matches o t ty = true <->
  o = "publish" /\ t = "/chatter" /\ ty = "std_msgs/String".
Proof.
  unfold route_matches. rewrite !andb_true_iff, !String.eqb_eq. tauto.
Qed.

(** The membership test on an object. *)
Lemma has_members_object (m : list (string * Value)) :
  has_members (objectValue m) =
  Ok (match find "op" m, find "topic" m, find "msg" m, find "type" m with
      | Some _, Some _, Some _, Some _ => true
      | _, _, _, _ => false
      end).
Proof.
  unfold has_members, andthen, isMember; cbn [bind].
  destruct (find "op" m); [|reflexivity].
  destruct (find "topic" m); [|reflexivity].
  destruct (find "msg" m); [|reflexivity].
  destruct (find "type" m); reflexivity.
Qed.

(** C2.  For every envelope that [decode] gives, [handleReceive] publishes
    the envelope's [payload_data] on [/chatter] exactly when its [op] is
    [publish], its [topic] is [/chatter] and its [type] is
    [std_msgs/String]; in every other case it publishes nothing.  In both
    cases it returns and the receive is started again. *)
Theorem route_exact_match (s : UdpServer) (bytes_recvd : nat) (env : Envelope) :
  0 < bytes_recvd ->
  decode parse (take bytes_recvd (data_ s)) = Ok (inr env) ->
  exists s',
    handleReceive parse s 0 bytes_recvd = Ok s'
    /\ receive_pending s' = true
    /\ published s' =
       (published s ++
        if route_matches (op env) (topic env) (type env)
        then [payload_data env] else [])%list
    /\ (route_matches (op env) (topic env) (type env) = true <->
        op env = "publish" /\ topic env = "/chatter"
        /\ type env = "std_msgs/String").
Proof.
  intros Hn Hdec. rewrite (handleReceive_ok s bytes_recvd Hn).
  unfold decode in Hdec.
  destruct (parse (take bytes_recvd (data_ s))) as [json|]; [|discriminate].
  destruct (has_members json) as [[]|]; cbn [bind] in *; try discriminate.
  destruct (member_string json "op") as [o|]; cbn [bind] in *;
    try discriminate.
  destruct (member_string json "topic") as [t|]; cbn [bind] in *;
    try discriminate.
  destruct (member_string json "type") as [ty|]; cbn [bind] in *;
    try discriminate.
  destruct (msg_data_string json) as [d|]; cbn [bind] in *; try discriminate.
  injection Hdec as <-. cbn [op topic type payload_data].
  pose proof (route_matches_iff o t ty) as Hiff.
  destruct (route_matches o t ty); cbn [bind];
    eexists; (split; [reflexivity|]); cbn;
    rewrite ?app_nil_r; auto.
Qed.

(** C3, as amended.  When the bytes parse as a JSON object in which one of
    the top-level members [op], [topic], [msg], [type] is absent, [decode]
    gives [MissingField] and [handleReceive] publishes nothing: it returns
    with the state unchanged but for the receive started again. *)
Theorem missing_member_dropped (s : UdpServer) (bytes_recvd : nat)
    (m : list (string * Value)) :
  0 < bytes_recvd ->
  parse (take bytes_recvd (data_ s)) = Some (objectValue m) ->
  find "op" m = None \/ find "topic" m = None \/ find "msg" m = None
  \/ find "type" m = None ->
  decode parse (take bytes_recvd (data_ s)) = Ok (inl MissingField)
  /\ handleReceive parse s 0 bytes_recvd = Ok (receivePacket s)
  /\ published (receivePacket s) = published s.
Proof.
  intros Hn Hp Hm. rewrite (handleReceive_ok s bytes_recvd Hn).
  unfold decode. rewrite Hp, has_members_object.
  assert (match find "op" m, find "topic" m, find "msg" m, find "type" m with
          | Some _, Some _, Some _, Some _ => true
          | _, _, _, _ => false
          end = false) as ->.
  { destruct Hm as [-> | [-> | [-> | ->]]];
      repeat match goal with |- context [find ?k m] => destruct (find k m) end;
      reflexivity. }
  cbn [bind]. auto.
Qed.

(** C4, as amended.  When the reader rejects the bytes of a datagram that
    is not empty, [decode] gives [MalformedJSON] and [handleReceive]
    returns without an exception, with nothing published and the receive
    started again. *)
Theorem malformed_json_dropped (s : UdpServer) (bytes_recvd : nat) :
  0 < bytes_recvd ->
  parse (take bytes_recvd (data_ s)) = None ->
  decode parse (take bytes_recvd (data_ s)) = Ok (inl MalformedJSON)
  /\ handleReceive parse s 0 bytes_recvd = Ok (receivePacket s)
  /\ published (receivePacket s) = published s
  /\ receive_pending (receivePacket s) = true.
Proof.
  intros Hn Hp. rewrite (handleReceive_ok s bytes_recvd Hn).
  unfold decode. rewrite Hp. cbn [bind]. auto.
Qed.

(** C10, as amended.  When the bytes parse as a JSON object with [op] the
    string [publish], [topic] the string [/chatter], [type] the string
    [std_msgs/String] and [msg] null or an object without a [data]
    member, [handleReceive] publishes the empty string on [/chatter]. *)
Theorem absent_data_published_empty (s : UdpServer) (bytes_recvd : nat)
    (m : list (string * Value)) (msg : Value) :
  0 < bytes_recvd ->
  parse (take bytes_recvd (data_ s)) = Some (objectValue m) ->
  find "op" m = Some (stringValue "publish") ->
  find "topic" m = Some (stringValue "/chatter") ->
  find "type" m = Some (stringValue "std_msgs/String") ->
  find "msg" m = Some msg ->
  msg = nullValue
  \/ (exists members, msg = objectValue members /\ find "data" members = None) ->
  handleReceive parse s 0 bytes_recvd =
    Ok (receivePacket (publish (ros_log s (InfoReceived "")) ""))
  /\ published (receivePacket (publish (ros_log s (InfoReceived "")) "")) =
     (published s ++ [""])%list.
Proof.
  intros Hn Hp Hop Htopic Htype Hmsg Hdata.
  rewrite (handleReceive_ok s bytes_recvd Hn), Hp, has_members_object.
  rewrite Hop, Htopic, Htype, Hmsg.
  unfold msg_data_string, member_string, subscript. cbn [bind].
  rewrite Hop, Htopic, Htype, Hmsg. cbn.
  destruct Hdata as [-> | (members & -> & Hdata)].
  - cbn. auto.
  - rewrite Hdata. cbn. auto.
Qed.

Lemma deliver_frame (s s' : UdpServer) (payload : string) (from : endpoint) :
  deliver parse s payload from = Ok s' ->
  sent s' = sent s
  /\ (receive_pending s = true -> sender_endpoint_ s' = from).
Proof.
  unfold deliver. destruct (receive_pending s).
  - intros H. apply handleReceive_frame in H. cbn in H.
    destruct H as (He & _ & Hs). auto.
  - intros [= <-]. split; [reflexivity | discriminate].
Qed.

(** C8.  [handleReceive] starts no send, whatever the error code, the
    byte count and the bytes are; and of all events, only a message on
    [/listener] changes the list of sends. *)
Theorem inbound_never_sends (s : UdpServer) :
  (forall (error : Z) (bytes_recvd : nat) (s' : UdpServer),
     handleReceive parse s error bytes_recvd = Ok s' -> sent s' = sent s)
  /\ (forall (e : event) (s' : UdpServer),
        step parse write s e = Ok s' ->
        sent s' <> sent s ->
        exists data, e = BusMessage data).
Proof.
  split.
  - intros error n s' H. now apply handleReceive_frame in H.
  - intros [payload from | error | error n | data] s'; cbn [step];
      intros H Hs.
    + apply deliver_frame in H. destruct H as [H _]. congruence.
    + unfold fail_receive in H. destruct (receive_pending s).
      * apply handleReceive_frame in H. cbn in H.
        destruct H as (_ & _ & H). congruence.
      * injection H as <-. congruence.
    + injection H as <-. unfold handleSend in Hs.
      destruct ((error =? 0)%Z && (0 <? n)%nat); cbn in Hs; congruence.
    + now exists data.
Qed.

(** C5, as amended.  The completion of a receive stores the sender of the
    datagram in [sender_endpoint_], whatever the bytes are, and a send
    started by a message on [/listener] goes to that endpoint: after a
    datagram from [A] to [A]; after a later datagram from [B] that is read
    (a receive is outstanding when it arrives) to [B]. *)
Theorem peer_endpoint_tracks_last_sender
    (s s1 s2 : UdpServer) (payloadA payloadB data : string) (A B : endpoint) :
  receive_pending s = true ->
  deliver parse s payloadA A = Ok s1 ->
  (sender_endpoint_ s1 = A
   /\ sent (listenerCallback write s1 data) =
      (sent s1 ++ [(encode write "/listener" "std_msgs/String" data, A)])%list)
  /\ (receive_pending s1 = true ->
      deliver parse s1 payloadB B = Ok s2 ->
      sender_endpoint_ s2 = B
      /\ sent (listenerCallback write s2 data) =
         (sent s2 ++
          [(encode write "/listener" "std_msgs/String" data, B)])%list).
Proof.
  intros Hp HA. apply deliver_frame in HA. destruct HA as [_ HA].
  specialize (HA Hp). split.
  - split; [assumption|]. cbn. now rewrite HA.
  - intros Hp1 HB. apply deliver_frame in HB. destruct HB as [_ HB].
    specialize (HB Hp1). split; [assumption|]. cbn. now rewrite HB.
Qed.

(** Once no receive is outstanding, no event starts one: datagrams are
    not read, [handleSend] only logs and [listenerCallback] only sends. *)
Lemma run_not_pending (events : list event) (s : UdpServer) :
  receive_pending s = false ->
  exists s',
    run parse write s events = Ok s'
    /\ receive_pending s' = false
    /\ published s' = published s
    /\ sender_endpoint_ s' = sender_endpoint_ s.
Proof.
  revert s; induction events as [|e events IH]; intros s Hp.
  - exists s. auto.
  - destruct e as [payload from | error | error n | data];
      cbn [run step bind].
    + unfold deliver. rewrite Hp. cbn [bind]. now apply IH.
    + unfold fail_receive. rewrite Hp. cbn [bind]. now apply IH.
    + destruct (IH (handleSend s error n)) as (s' & Hr & H1 & H2 & H3).
      { unfold handleSend.
        destruct ((error =? 0)%Z && (0 <? n)%nat); exact Hp. }
      exists s'. repeat split; try assumption.
      * rewrite H2. unfold handleSend.
        destruct ((error =? 0)%Z && (0 <? n)%nat); reflexivity.
      * rewrite H3. unfold handleSend.
        destruct ((error =? 0)%Z && (0 <? n)%nat); reflexivity.
    + destruct (IH (listenerCallback write s data)) as (s' & Hr & H1 & H2 & H3);
        [exact Hp|].
      exists s'. auto.
Qed.

(** C9.  A datagram of zero bytes that completes the receive without an
    error takes the error branch of [handleReceive]: the error is logged,
    the receive is not started again, and whatever events follow, no
    datagram is read any more (nothing is published, the endpoint stays). *)
Theorem zero_byte_datagram_stops_receiving
    (s : UdpServer) (from : endpoint) (events : list event) :
  receive_pending s = true ->
  exists s1,
    deliver parse s EmptyString from = Ok s1
    /\ receive_pending s1 = false
    /\ log s1 = (log s ++ [ErrorReceiving 0])%list
    /\ published s1 = published s
    /\ exists s2,
         run parse write s1 events = Ok s2
         /\ receive_pending s2 = false
         /\ published s2 = published s1
         /\ sender_endpoint_ s2 = sender_endpoint_ s1.
Proof.
  intros Hp. unfold deliver. rewrite Hp. cbn.
  eexists. split; [reflexivity|]. cbn.
  repeat (split; [reflexivity|]).
  now apply run_not_pending.
Qed.

End Handlers.

(** ** The codec *)

Lemma decode_write_envelope
    (decodeDouble : string -> option string) (topic type data : string) :
  decode (Reader.parse decodeDouble)
    (FastWriter.write (envelope topic type data))
  = Ok (inr (mkEnvelope "publish" topic type data)).
Proof.
  unfold decode. rewrite Codec.parse_write_envelope.
  rewrite Codec.envelope_members. reflexivity.
Qed.

(** C1.  For all strings [topic], [type] and [data], decoding the bytes
    that [FastWriter] writes for the envelope of these three succeeds and
    gives the envelope with [op] equal to [publish] and the same [topic],
    [type] and [data]; [data] is any sequence of bytes (empty, UTF-8,
    quotes, backslashes, control characters). *)
Theorem decode_encode_roundtrip
    (decodeDouble : string -> option string) (topic type data : string) :
  decode (Reader.parse decodeDouble) (encode FastWriter.write topic type data)
  = Ok (inr (mkEnvelope "publish" topic type data)).
Proof. unfold encode. apply decode_write_envelope. Qed.

(** C6.  For every string delivered on [/listener], [listenerCallback]
    starts exactly one send, to the endpoint in [sender_endpoint_], of the
    bytes written for the envelope with topic [/listener], type
    [std_msgs/String] and that string as data; it publishes nothing; and
    the bytes decode to that envelope. *)
Theorem listener_message_encoded_and_sent
    (decodeDouble : string -> option string) (s : UdpServer) (data : string) :
  let bytes := FastWriter.write (envelope "/listener" "std_msgs/String" data) in
  sent (listenerCallback FastWriter.write s data) =
    (sent s ++ [(bytes, sender_endpoint_ s)])%list
  /\ published (listenerCallback FastWriter.write s data) = published s
  /\ decode (Reader.parse decodeDouble) bytes =
     Ok (inr (mkEnvelope "publish" "/listener" "std_msgs/String" data)).
Proof.
  cbv zeta. split; [reflexivity|]. split; [reflexivity|].
  apply decode_write_envelope.
Qed.

(** X1.  The two directions together: a datagram that carries the bytes
    written for an envelope with topic [/chatter] and type
    [std_msgs/String], and that fits the buffer, makes [handleReceive]
    publish the envelope's data. *)
Theorem encoded_chatter_datagram_published
    (decodeDouble : string -> option string) (s : UdpServer)
    (data : string) (from : endpoint) :
  receive_pending s = true ->
  String.length (encode FastWriter.write "/chatter" "std_msgs/String" data)
    <= max_length ->
  exists s',
    deliver (Reader.parse decodeDouble) s
      (encode FastWriter.write "/chatter" "std_msgs/String" data) from = Ok s'
    /\ published s' = (published s ++ [data])%list
    /\ sender_endpoint_ s' = from
    /\ receive_pending s' = true.
Proof.
  intros Hp Hlen. unfold deliver. rewrite Hp.
  set (bytes := encode FastWriter.write "/chatter" "std_msgs/String" data) in *.
  rewrite (Nat.min_l _ _ Hlen).
  assert (0 < String.length bytes) as Hpos.
  { unfold bytes, encode, FastWriter.write.
    destruct (Codec.writeValue_envelope_length "/chatter" "std_msgs/String"
                data (String char_n "")) as [n ->]. lia. }
  rewrite (handleReceive_ok _ _ _ Hpos). cbn [data_].
  rewrite take_all, take_append. unfold bytes, encode.
  rewrite Codec.parse_write_envelope, Codec.envelope_members.
  eexists. split; [reflexivity|]. cbn. auto.
Qed.

Lemma transmitted_default (sends : list (string * endpoint)) :
  Forall (fun send => snd send = default_endpoint) sends ->
  transmitted sends = [].
Proof.
  induction 1 as [|[bytes dest] sends Hd _ IH]; [reflexivity|].
  cbn in Hd. subst dest. cbn. exact IH.
Qed.

(** C7.  As long as no datagram has been received (whatever bus messages,
    send completions and receive errors the object has handled since its
    construction), no handler throws, [sender_endpoint_] is still the
    default-constructed endpoint, and every send that was started, as well
    as the one [sendPacket] starts next, is addressed to that endpoint: no
    datagram reaches a peer. *)
Theorem send_before_receive_reaches_no_peer
    (parse : string -> option Value) (write : Value -> string)
    (garbage : string) (events : list event) (data : string) :
  forallb no_datagram events = true ->
  exists s,
    run parse write (UdpServer_init garbage) events = Ok s
    /\ sender_endpoint_ s = default_endpoint
    /\ Forall (fun send => snd send = default_endpoint)
         (sent (sendPacket s data))
    /\ transmitted (sent (sendPacket s data)) = [].
Proof.
  intros Hev.
  assert (forall s0,
            sender_endpoint_ s0 = default_endpoint ->
            Forall (fun send => snd send = default_endpoint) (sent s0) ->
            exists s,
              run parse write s0 events = Ok s
              /\ sender_endpoint_ s = default_endpoint
              /\ Forall (fun send => snd send = default_endpoint) (sent s))
    as Hrun.
  { induction events as [|e events IH]; intros s0 He Hs; [now exists s0|].
    cbn [forallb] in Hev. apply andb_true_iff in Hev.
    destruct Hev as [Hne Hev]. specialize (IH Hev).
    destruct e as [payload from | error | error n | msg_data];
      try discriminate; cbn [run step bind].
    - unfold fail_receive, handleReceive.
      rewrite andb_false_r.
      destruct (receive_pending s0); cbn [bind]; apply IH; assumption.
    - apply IH; unfold handleSend;
        destruct ((error =? 0)%Z && (0 <? n)%nat); assumption.
    - apply IH; [exact He|].
      cbn. apply Forall_app. split; [exact Hs|].
      constructor; [exact He | constructor]. }
  destruct (Hrun (UdpServer_init garbage) eq_refl (Forall_nil _))
    as (s & Hr & He & Hs).
  assert (Forall (fun send => snd send = default_endpoint)
            (sent (sendPacket s data))) as Hall.
  { cbn. apply Forall_app. split; [exact Hs|].
    constructor; [exact He | constructor]. }
  exists s. repeat split; try assumption.
  now apply transmitted_default.
Qed.

(** ** Scenarios *)

Example scenario1_publishes_hello :
  deliver (Reader.parse no_double) server0 scenario1 peerA =
  Ok (mkUdpServer peerA scenario1 true ["hello"] [] [InfoReceived "hello"]).
Proof. vm_compute. reflexivity. Qed.

Example scenario2_bytes :
  FastWriter.write (envelope "/listener" "std_msgs/String" "world") =
  json_text
    "{'msg':{'data':'world'},'op':'publish','topic':'/listener','type':'std_msgs/String'}"
  ++ String char_n "".
Proof. vm_compute. reflexivity. Qed.

Example scenario3_no_publish :
  deliver (Reader.parse no_double) server0 scenario3 peerA =
  Ok (mkUdpServer peerA scenario3 true [] [] []).
Proof. vm_compute. reflexivity. Qed.

Example scenario4_not_json :
  deliver (Reader.parse no_double) server0 "not json" peerA =
  Ok (mkUdpServer peerA "not json" true [] [] []).
Proof. vm_compute. reflexivity. Qed.

Example op_delete_no_publish :
  deliver (Reader.parse no_double) server0 op_delete peerA =
  Ok (mkUdpServer peerA op_delete true [] [] []).
Proof. vm_compute. reflexivity. Qed.

(** The reader does not look at what follows the root value: an envelope
    followed by other text is read and published. *)
Example trailing_text_ignored :
  deliver (Reader.parse no_double) server0 (scenario1 ++ " not json") peerA =
  Ok (mkUdpServer peerA (scenario1 ++ " not json") true ["hello"] []
        [InfoReceived "hello"]).
Proof. vm_compute. reflexivity. Qed.

(** An array has no members to ask for: [isMember] throws. *)
Example array_throws :
  deliver (Reader.parse no_double) server0 "[1]" peerA =
  Throw (LogicError
    "in Json::Value::find(key, end, found): requires objectValue or nullValue").
Proof. vm_compute. reflexivity. Qed.

(** ** Instances *)

Lemma route_exact_match_scenario1 :
  exists s',
    handleReceive (Reader.parse no_double) (received scenario1 peerA) 0 83
    = Ok s'
    /\ receive_pending s' = true
    /\ published s' =
       ([] ++
        if route_matches "publish" "/chatter" "std_msgs/String"
        then ["hello"] else [])%list
    /\ (route_matches "publish" "/chatter" "std_msgs/String" = true <->
        "publish" = "publish" /\ "/chatter" = "/chatter"
        /\ "std_msgs/String" = "std_msgs/String").
Proof.
  apply (route_exact_match (Reader.parse no_double) (received scenario1 peerA)
           83 (mkEnvelope "publish" "/chatter" "std_msgs/String" "hello")).
  - lia.
  - vm_compute. reflexivity.
Defined.

(** C3 as stated fails: in [no_data] the nested [data] is absent, yet
    [decode] gives an envelope, with the empty string as data, and the
    empty string is published. *)
Lemma absent_data_not_missing_field :
  Reader.parse no_double no_data =
    Some (objectValue [("msg", objectValue []);
                       ("op", stringValue "publish");
                       ("topic", stringValue "/chatter");
                       ("type", stringValue "std_msgs/String")])
  /\ decode (Reader.parse no_double) no_data =
     Ok (inr (mkEnvelope "publish" "/chatter" "std_msgs/String" ""))
  /\ decode (Reader.parse no_double) no_data <> Ok (inl MissingField)
  /\ deliver (Reader.parse no_double) server0 no_data peerA =
     Ok (mkUdpServer peerA no_data true [""] [] [InfoReceived ""]).
Proof.
  repeat split; try (vm_compute; reflexivity).
  vm_compute. discriminate.
Qed.

Lemma missing_member_dropped_no_msg :
  decode (Reader.parse no_double) no_msg = Ok (inl MissingField)
  /\ handleReceive (Reader.parse no_double) (received no_msg peerA) 0 60 =
     Ok (receivePacket (received no_msg peerA))
  /\ published (receivePacket (received no_msg peerA)) = [].
Proof.
  apply (missing_member_dropped (Reader.parse no_double)
           (received no_msg peerA) 60
           [("op", stringValue "publish"); ("topic", stringValue "/chatter");
            ("type", stringValue "std_msgs/String")]).
  - lia.
  - vm_compute. reflexivity.
  - right. right. left. reflexivity.
Defined.

(** C4 as stated fails: the empty datagram is no JSON text, and after it
    the receive is not started again, so a datagram that follows is not
    read. *)
Lemma empty_datagram_not_rearmed :
  Reader.parse no_double EmptyString = None
  /\ deliver (Reader.parse no_double) server0 EmptyString peerA =
     Ok (mkUdpServer peerA EmptyString false [] [] [ErrorReceiving 0])
  /\ run (Reader.parse no_double) FastWriter.write server0
       [Datagram EmptyString peerA; Datagram scenario1 peerB] =
     Ok (mkUdpServer peerA EmptyString false [] [] [ErrorReceiving 0]).
Proof. repeat split; vm_compute; reflexivity. Qed.

Lemma malformed_json_dropped_not_json :
  decode (Reader.parse no_double) "not json" = Ok (inl MalformedJSON)
  /\ handleReceive (Reader.parse no_double) (received "not json" peerA) 0 8 =
     Ok (receivePacket (received "not json" peerA))
  /\ published (receivePacket (received "not json" peerA)) = []
  /\ receive_pending (receivePacket (received "not json" peerA)) = true.
Proof.
  apply (malformed_json_dropped (Reader.parse no_double)
           (received "not json" peerA) 8).
  - lia.
  - vm_compute. reflexivity.
Defined.

(** C5 as stated fails: after a datagram of zero bytes from [peerA] the
    datagram from [peerB] is not read, and the send that follows goes to
    [peerA]. *)
Lemma zero_byte_from_A_then_B_sends_to_A :
  run (Reader.parse no_double) FastWriter.write server0
    [Datagram EmptyString peerA; Datagram scenario1 peerB; BusMessage "world"]
  = Ok (mkUdpServer peerA EmptyString false []
          [(FastWriter.write (envelope "/listener" "std_msgs/String" "world"),
            peerA)]
          [ErrorReceiving 0; InfoHeard "world"])
  /\ peerA <> peerB.
Proof. split; [vm_compute; reflexivity | discriminate]. Qed.

Lemma peer_endpoint_A_then_B :
  (sender_endpoint_ after_A = peerA
   /\ sent (listenerCallback FastWriter.write after_A "world") =
      [(encode FastWriter.write "/listener" "std_msgs/String" "world", peerA)])
  /\ sender_endpoint_ after_B = peerB
  /\ sent (listenerCallback FastWriter.write after_B "world") =
     [(encode FastWriter.write "/listener" "std_msgs/String" "world", peerB)].
Proof.
  destruct (peer_endpoint_tracks_last_sender (Reader.parse no_double)
              FastWriter.write server0 after_A after_B
              "not json" scenario1 "world" peerA peerB)
    as [HA HB].
  - reflexivity.
  - vm_compute. reflexivity.
  - split; [exact HA|]. apply HB.
    + reflexivity.
    + vm_compute. reflexivity.
Defined.

Lemma send_before_receive_world :
  exists s,
    run (Reader.parse no_double) FastWriter.write (UdpServer_init EmptyString)
      [BusMessage "world"; SendDone 22 0; ReceiveFailed 125] = Ok s
    /\ sender_endpoint_ s = default_endpoint
    /\ Forall (fun send => snd send = default_endpoint)
         (sent (sendPacket s "again"))
    /\ transmitted (sent (sendPacket s "again")) = [].
Proof.
  apply (send_before_receive_reaches_no_peer (Reader.parse no_double)
           FastWriter.write EmptyString
           [BusMessage "world"; SendDone 22 0; ReceiveFailed 125] "again").
  reflexivity.
Defined.

Lemma inbound_never_sends_scenario1 :
  sent (mkUdpServer peerA scenario1 true ["hello"] [] [InfoReceived "hello"])
  = sent (received scenario1 peerA)
  /\ exists data, BusMessage "world" = BusMessage data.
Proof.
  destruct (inbound_never_sends (Reader.parse no_double) FastWriter.write
              (received scenario1 peerA)) as [H1 H2].
  split.
  - apply (H1 0%Z 83). vm_compute. reflexivity.
  - apply (H2 (BusMessage "world") _ eq_refl). discriminate.
Defined.

Lemma zero_byte_datagram_then_scenario1 :
  exists s1,
    deliver (Reader.parse no_double) server0 EmptyString peerA = Ok s1
    /\ receive_pending s1 = false
    /\ log s1 = [ErrorReceiving 0]
    /\ published s1 = []
    /\ exists s2,
         run (Reader.parse no_double) FastWriter.write s1
           [Datagram scenario1 peerB; BusMessage "world"] = Ok s2
         /\ receive_pending s2 = false
         /\ published s2 = published s1
         /\ sender_endpoint_ s2 = sender_endpoint_ s1.
Proof.
  apply (zero_byte_datagram_stops_receiving (Reader.parse no_double)
           FastWriter.write server0 peerA
           [Datagram scenario1 peerB; BusMessage "world"]).
  reflexivity.
Defined.

Lemma absent_data_published_empty_no_data :
  handleReceive (Reader.parse no_double) (received no_data peerA) 0 69 =
    Ok (receivePacket
          (publish (ros_log (received no_data peerA) (InfoReceived "")) ""))
  /\ published
       (receivePacket
          (publish (ros_log (received no_data peerA) (InfoReceived "")) ""))
     = [""].
Proof.
  apply (absent_data_published_empty (Reader.parse no_double)
           (received no_data peerA) 69
           [("msg", objectValue []); ("op", stringValue "publish");
            ("topic", stringValue "/chatter");
            ("type", stringValue "std_msgs/String")] (objectValue [])).
  - lia.
  - vm_compute. reflexivity.
  - reflexivity.
  - reflexivity.
  - reflexivity.
  - reflexivity.
  - right. exists []. split; reflexivity.
Defined.

(** C10 as stated fails: in [msg_number] the object has the three strings
    of the route and a [msg] field, a number, in which no [data] is
    nested; the handler publishes nothing, it throws. *)
Lemma absent_data_in_number_msg_throws :
  Reader.parse no_double msg_number =
    Some (objectValue [("msg", intValue 5);
                       ("op", stringValue "publish");
                       ("topic", stringValue "/chatter");
                       ("type", stringValue "std_msgs/String")])
  /\ deliver (Reader.parse no_double) server0 msg_number peerA =
     Throw (LogicError
       "in Json::Value::resolveReference(key, end): requires objectValue").
Proof. split; vm_compute; reflexivity. Qed.

Lemma encoded_chatter_datagram_hello :
  exists s',
    deliver (Reader.parse no_double) server0
      (encode FastWriter.write "/chatter" "std_msgs/String" "hello") peerA
    = Ok s'
    /\ published s' = ["hello"]
    /\ sender_endpoint_ s' = peerA
    /\ receive_pending s' = true.
Proof.
  apply (encoded_chatter_datagram_published no_double server0 "hello" peerA).
  - reflexivity.
  - vm_compute. lia.
Defined.

(** * More on the handlers *)

Lemma take_take (n m : nat) (a : string) :
  n <= m -> take n (take m a) = take n a.
Proof.
  revert m a; induction n as [|n IH]; intros [|m] [|x a] H; simpl;
    try reflexivity; try lia.
  rewrite IH by lia. reflexivity.
Qed.

Lemma take_min (m : nat) (a : string) :
  take (Nat.min (String.length a) m) a = take m a.
Proof.
  revert m; induction a as [|x a IH]; intros [|m]; simpl; try reflexivity.
  now rewrite IH.
Qed.

(** What [handleReceive] reads of the buffer after a receive has
    completed: the datagram, cut to [max_length] bytes. *)
Lemma received_bytes (payload old : string) :
  let n := Nat.min (String.length payload) max_length in
  take n (take n payload ++ drop n old) = take max_length payload.
Proof.
  cbv zeta. set (n := Nat.min (String.length payload) max_length).
  assert (String.length (take n payload) = n) as Hn.
  { rewrite take_length. unfold n. lia. }
  rewrite <- Hn at 1. rewrite take_append. apply take_min.
Qed.

Section Runs.

Variable parse : string -> option Value.
Variable write : Value -> string.

(** The three ways in which [handleReceive] returns. *)
Lemma handleReceive_cases (s s' : UdpServer) (error : Z) (n : nat) :
  handleReceive parse s error n = Ok s' ->
  ((error =? 0)%Z && (0 <? n)%nat = false
   /\ s' = ros_log s (ErrorReceiving error))
  \/ ((error =? 0)%Z && (0 <? n)%nat = true
      /\ (s' = receivePacket s
          \/ exists env,
               decode parse (take n (data_ s)) = Ok (inr env)
               /\ route_matches (op env) (topic env) (type env) = true
               /\ s' = receivePacket
                         (publish (ros_log s (InfoReceived (payload_data env)))
                            (payload_data env)))).
Proof.
  unfold handleReceive, decode.
  destruct ((error =? 0)%Z && (0 <? n)%nat).
  2:{ intros [= <-]. left. auto. }
  intros H. right. split; [reflexivity|].
  destruct (parse (take n (data_ s))) as [json|]; cbn [bind] in *.
  2:{ injection H as <-. now left. }
  destruct (has_members json) as [[]|]; cbn [bind] in *; try discriminate.
  2:{ injection H as <-. now left. }
  destruct (member_string json "op") as [o|]; cbn [bind] in *;
    try discriminate.
  destruct (member_string json "topic") as [t|]; cbn [bind] in *;
    try discriminate.
  destruct (member_string json "type") as [ty|]; cbn [bind] in *;
    try discriminate.
  destruct (route_matches o t ty) eqn:R.
  2:{ injection H as <-. now left. }
  destruct (msg_data_string json) as [d|]; cbn [bind] in *; try discriminate.
  injection H as <-. right. exists (mkEnvelope o t ty d). auto.
Qed.

(** X2.  A datagram longer than the buffer is handled as its first
    [max_length] bytes: the object ends in the same state, or the handler
    throws the same exception, as for the datagram cut to that size. *)
Theorem deliver_truncates (s : UdpServer) (payload : string) (from : endpoint) :
  deliver parse s payload from =
  deliver parse s (take max_length payload) from.
Proof.
  unfold deliver. destruct (receive_pending s); [|reflexivity].
  rewrite take_length.
  replace (Nat.min (Nat.min max_length (String.length payload)) max_length)
    with (Nat.min (String.length payload) max_length) by lia.
  rewrite take_take by lia. reflexivity.
Qed.

(** X3.  What a datagram makes the object do does not depend on what the
    object did before, nor on what an earlier datagram left in the buffer:
    from any two states with a receive outstanding, the same datagram
    either throws the same exception, or appends the same messages (at
    most one) to [published] and the same lines to [log], stores its
    sender, starts no send and leaves the receive in the same state. *)
Theorem deliver_stateless
    (s1 s2 : UdpServer) (payload : string) (from : endpoint) :
  receive_pending s1 = true ->
  receive_pending s2 = true ->
  match deliver parse s1 payload from, deliver parse s2 payload from with
  | Ok a, Ok b =>
      exists pub lg,
        published a = (published s1 ++ pub)%list
        /\ published b = (published s2 ++ pub)%list
        /\ List.length pub <= 1
        /\ log a = (log s1 ++ lg)%list /\ log b = (log s2 ++ lg)%list
        /\ receive_pending a = receive_pending b
        /\ sender_endpoint_ a = from /\ sender_endpoint_ b = from
        /\ sent a = sent s1 /\ sent b = sent s2
  | Throw e1, Throw e2 => e1 = e2
  | _, _ => False
  end.
Proof.
  intros H1 H2. unfold deliver. rewrite H1, H2. cbv zeta.
  unfold handleReceive. cbn [data_]. rewrite !received_bytes.
  destruct ((0 =? 0)%Z && (0 <? Nat.min (String.length payload) max_length)%nat).
  2:{ exists [], [ErrorReceiving 0]. cbn. rewrite !app_nil_r. auto 12. }
  destruct (parse (take max_length payload)) as [json|]; cbn [bind].
  2:{ exists [], []. cbn. rewrite !app_nil_r. auto 12. }
  destruct (has_members json) as [[]|]; cbn [bind]; [| |reflexivity].
  2:{ exists [], []. cbn. rewrite !app_nil_r. auto 12. }
  destruct (member_string json "op") as [o|]; cbn [bind]; [|reflexivity].
  destruct (member_string json "topic") as [t|]; cbn [bind]; [|reflexivity].
  destruct (member_string json "type") as [ty|]; cbn [bind]; [|reflexivity].
  destruct (route_matches o t ty).
  2:{ exists [], []. cbn. rewrite !app_nil_r. auto 12. }
  destruct (msg_data_string json) as [d|]; cbn [bind]; [|reflexivity].
  exists [d], [InfoReceived d]. cbn. auto 12.
Qed.

(** X4.  A datagram whose bytes parse as a JSON value that is neither an
    object nor null (an array, a string, a number, a boolean) makes
    [handleReceive] throw [Json::LogicError] at the first [isMember]:
    nothing is published and the receive is not started again. *)
Theorem non_object_throws (s : UdpServer) (bytes_recvd : nat) (json : Value) :
  0 < bytes_recvd ->
  parse (take bytes_recvd (data_ s)) = Some json ->
  json <> nullValue ->
  (forall m, json <> objectValue m) ->
  handleReceive parse s 0 bytes_recvd =
  Throw (LogicError
    "in Json::Value::find(key, end, found): requires objectValue or nullValue").
Proof.
  intros Hn Hp Hnull Hobj. unfold handleReceive.
  destruct bytes_recvd as [|n]; [lia|]. cbn [Z.eqb Nat.ltb Nat.leb andb].
  rewrite Hp.
  destruct json; try reflexivity.
  - now contradiction Hnull.
  - now contradiction (Hobj members).
Qed.

(** X5.  A routed envelope whose [msg] is neither an object nor null makes
    [handleReceive] throw [Json::LogicError]: with [op], [topic] and
    [type] the three strings of the route, the handler indexes [msg] by
    [data] without a test of its type. *)
Theorem routed_scalar_msg_throws
    (s : UdpServer) (bytes_recvd : nat) (m : list (string * Value))
    (msg : Value) :
  0 < bytes_recvd ->
  parse (take bytes_recvd (data_ s)) = Some (objectValue m) ->
  find "op" m = Some (stringValue "publish") ->
  find "topic" m = Some (stringValue "/chatter") ->
  find "type" m = Some (stringValue "std_msgs/String") ->
  find "msg" m = Some msg ->
  msg <> nullValue ->
  (forall members, msg <> objectValue members) ->
  handleReceive parse s 0 bytes_recvd =
  Throw (LogicError
    "in Json::Value::resolveReference(key, end): requires objectValue").
Proof.
  intros Hn Hp Hop Htopic Htype Hmsg Hnull Hobj. unfold handleReceive.
  destruct bytes_recvd as [|n]; [lia|]. cbn [Z.eqb Nat.ltb Nat.leb andb].
  rewrite Hp, has_members_object, Hop, Htopic, Htype, Hmsg.
  unfold msg_data_string, member_string, subscript. cbn [bind].
  rewrite Hop, Htopic, Htype, Hmsg. cbn.
  destruct msg; try reflexivity.
  - now contradiction Hnull.
  - now contradiction (Hobj members).
Qed.

(** X6.  [handleReceive] throws nothing when the bytes parse as a JSON
    object in which [op], [topic] and [type], where present, are not
    arrays or objects, and [msg], where present, is null or an object
    whose [data], where present, is not an array or object. *)
Theorem well_typed_never_throws
    (s : UdpServer) (bytes_recvd : nat) (m : list (string * Value)) :
  parse (take bytes_recvd (data_ s)) = Some (objectValue m) ->
  (forall key v,
     In key ["op"; "topic"; "type"] -> find key m = Some v ->
     convertible v = true) ->
  (forall v,
     find "msg" m = Some v ->
     v = nullValue
     \/ exists members,
          v = objectValue members
          /\ forall d, find "data" members = Some d -> convertible d = true) ->
  exists s', handleReceive parse s 0 bytes_recvd = Ok s'.
Proof.
  intros Hp Hkeys Hmsg. unfold handleReceive.
  destruct ((0 =? 0)%Z && (0 <? bytes_recvd)%nat); [|eauto].
  rewrite Hp, has_members_object.
  assert (forall key, In key ["op"; "topic"; "type"] ->
            forall v, find key m = Some v ->
            exists str, member_string (objectValue m) key = Ok str) as Hstr.
  { intros key Hin v Hf. unfold member_string, subscript. cbn [bind].
    rewrite Hf. specialize (Hkeys key v Hin Hf).
    destruct v; try discriminate; cbn; eauto. }
  destruct (find "op" m) as [vo|] eqn:Eo; cbn [bind]; [|eauto].
  destruct (find "topic" m) as [vt|] eqn:Et; cbn [bind]; [|eauto].
  destruct (find "msg" m) as [vm|] eqn:Em; cbn [bind]; [|eauto].
  destruct (find "type" m) as [vy|] eqn:Ey; cbn [bind]; [|eauto].
  destruct (Hstr "op" ltac:(cbn; auto) vo Eo) as [o Ho].
  destruct (Hstr "topic" ltac:(cbn; auto) vt Et) as [t Ht].
  destruct (Hstr "type" ltac:(cbn; auto) vy Ey) as [ty Hty].
  rewrite Ho, Ht, Hty. cbn [bind].
  destruct (route_matches o t ty); cbn [bind]; [|eauto].
  assert (exists d, msg_data_string (objectValue m) = Ok d) as [d Hd].
  { unfold msg_data_string, member_string, subscript. cbn [bind].
    rewrite Em. destruct (Hmsg vm eq_refl) as [-> | (mm & -> & Hd)].
    - cbn. eauto.
    - cbn [bind]. destruct (find "data" mm) as [vd|] eqn:Ed; [|cbn; eauto].
      specialize (Hd vd eq_refl). destruct vd; try discriminate; cbn; eauto. }
  rewrite Hd. cbn [bind]. eauto.
Qed.

(** What one event does to the sends and to the endpoint. *)
Lemma step_sends (s s' : UdpServer) (e : event) :
  step parse write s e = Ok s' ->
  match e with
  | BusMessage data =>
      sent s' =
        (sent s ++
         [(encode write "/listener" "std_msgs/String" data,
           sender_endpoint_ s)])%list
      /\ sender_endpoint_ s' = sender_endpoint_ s
  | Datagram _ from =>
      sent s' = sent s
      /\ (sender_endpoint_ s' = from
          \/ sender_endpoint_ s' = sender_endpoint_ s)
  | _ => sent s' = sent s /\ sender_endpoint_ s' = sender_endpoint_ s
  end.
Proof.
  destruct e as [payload from | error | error n | data]; cbn [step].
  - unfold deliver. destruct (receive_pending s).
    + intros H. apply handleReceive_frame in H. cbn in H. tauto.
    + intros [= <-]. auto.
  - unfold fail_receive. destruct (receive_pending s).
    + intros H. apply handleReceive_frame in H. cbn in H. tauto.
    + intros [= <-]. auto.
  - intros [= <-]. unfold handleSend.
    destruct ((error =? 0)%Z && (0 <? n)%nat); auto.
  - intros [= <-]. auto.
Qed.

(** X7.  Over a whole run, the sends that are started are exactly the
    envelopes (topic [/listener], type [std_msgs/String]) of the messages
    the bus delivered, one each and in their order, and each goes to the
    endpoint the object started with or to the sender of a datagram of the
    run: nothing else is ever sent, and to no other address. *)
Theorem run_sends_listener_envelopes
    (events : list event) (s s' : UdpServer) :
  run parse write s events = Ok s' ->
  exists targets,
    List.length targets = List.length (bus_data events)
    /\ sent s' =
       (sent s ++
        combine (map (encode write "/listener" "std_msgs/String")
                   (bus_data events)) targets)%list
    /\ Forall (fun t => t = sender_endpoint_ s \/ In t (senders events))
         targets.
Proof.
  revert s; induction events as [|e events IH]; intros s; cbn [run].
  - intros [= <-]. exists []. cbn. rewrite app_nil_r. auto.
  - destruct (step parse write s e) as [s1|] eqn:E; cbn [bind];
      [|discriminate].
    intros H. destruct (IH s1 H) as (targets & Hlen & Hsent & Hall).
    apply step_sends in E.
    assert (forall from, Forall (fun t => t = sender_endpoint_ s1
                                          \/ In t (senders events)) targets ->
              sender_endpoint_ s1 = from
              \/ sender_endpoint_ s1 = sender_endpoint_ s ->
              Forall (fun t => t = sender_endpoint_ s
                               \/ In t (from :: senders events)) targets)
      as Hweak.
    { intros from HF Hor. eapply Forall_impl; [|exact HF].
      cbn. intros t [-> | Hin]; [|auto]. destruct Hor; auto. }
    destruct e as [payload from | error | error n | data];
      cbn [bus_data senders].
    + destruct E as [Es Ee]. exists targets. rewrite <- Es.
      repeat split; try assumption. now apply Hweak.
    + destruct E as [Es Ee]. exists targets. rewrite <- Es, <- Ee. auto.
    + destruct E as [Es Ee]. exists targets. rewrite <- Es, <- Ee. auto.
    + destruct E as [Es Ee]. exists (sender_endpoint_ s :: targets).
      cbn [List.length map combine]. rewrite Hlen, Hsent, Es, <- app_assoc.
      repeat split; try reflexivity.
      constructor; [now left|]. now rewrite <- Ee.
Qed.

(** What one event does to the published messages. *)
Lemma step_publishes (s s' : UdpServer) (e : event) :
  step parse write s e = Ok s' ->
  published s' = published s
  \/ exists payload from env,
       e = Datagram payload from
       /\ decode parse (take max_length payload) = Ok (inr env)
       /\ route_matches (op env) (topic env) (type env) = true
       /\ published s' = (published s ++ [payload_data env])%list.
Proof.
  destruct e as [payload from | error | error n | data]; cbn [step].
  - unfold deliver. destruct (receive_pending s).
    + intros H. apply handleReceive_cases in H. cbn [data_] in H.
      rewrite received_bytes in H.
      destruct H as [[_ ->] | [_ [-> | (env & Hd & Hr & ->)]]];
        [now left | now left |].
      right. exists payload, from, env. auto.
    + intros [= <-]. now left.
  - unfold fail_receive. destruct (receive_pending s).
    + intros H. apply handleReceive_cases in H.
      destruct H as [[_ ->] | [Hc _]]; [now left|].
      apply andb_true_iff in Hc. destruct Hc as [_ Hc]. discriminate.
    + intros [= <-]. now left.
  - intros [= <-]. left. unfold handleSend.
    destruct ((error =? 0)%Z && (0 <? n)%nat); reflexivity.
  - intros [= <-]. now left.
Qed.

(** X8.  Over a whole run, every message that is published is the data of
    an envelope decoded from (the first [max_length] bytes of) a datagram
    of the run whose [op], [topic] and [type] match the route, and there
    are at most as many as datagrams: the bus messages, the send
    completions and the receive errors publish nothing. *)
Theorem run_publishes_routed_data
    (events : list event) (s s' : UdpServer) :
  run parse write s events = Ok s' ->
  exists pub,
    published s' = (published s ++ pub)%list
    /\ List.length pub <= List.length (senders events)
    /\ Forall
         (fun data =>
            exists payload from env,
              In (Datagram payload from) events
              /\ decode parse (take max_length payload) = Ok (inr env)
              /\ route_matches (op env) (topic env) (type env) = true
              /\ payload_data env = data)
         pub.
Proof.
  revert s; induction events as [|e events IH]; intros s; cbn [run].
  - intros [= <-]. exists []. cbn. rewrite app_nil_r. auto.
  - destruct (step parse write s e) as [s1|] eqn:E; cbn [bind];
      [|discriminate].
    intros H. destruct (IH s1 H) as (pub & Hpub & Hlen & Hall).
    assert (Forall
              (fun data =>
                 exists payload from env,
                   In (Datagram payload from) (e :: events)
                   /\ decode parse (take max_length payload) = Ok (inr env)
                   /\ route_matches (op env) (topic env) (type env) = true
                   /\ payload_data env = data) pub) as Hall'.
    { eapply Forall_impl; [|exact Hall].
      intros d (payload & from & env & Hin & Hrest).
      exists payload, from, env. split; [now right | exact Hrest]. }
    assert (List.length (senders events) <= List.length (senders (e :: events)))
      as Hmono.
    { destruct e; cbn; lia. }
    apply step_publishes in E.
    destruct E as [E | (payload & from & env & -> & Hd & Hr & E)].
    + exists pub. rewrite Hpub, E. repeat split; [lia | exact Hall'].
    + exists (payload_data env :: pub).
      rewrite Hpub, E, <- app_assoc. cbn [senders List.length] in *.
      repeat split; [lia|].
      constructor; [|exact Hall'].
      exists payload, from, env. cbn. auto.
Qed.

(** X9.  A run in which no receive completes (bus messages and send
    completions only) never throws; it relays the bus messages in their
    order, all to the endpoint the object holds, publishes nothing and
    leaves the endpoint and the outstanding receive as they are. *)
Theorem quiet_run_relays_in_order (events : list event) (s : UdpServer) :
  forallb quiet events = true ->
  exists s',
    run parse write s events = Ok s'
    /\ sent s' =
       (sent s ++
        map (fun data =>
               (encode write "/listener" "std_msgs/String" data,
                sender_endpoint_ s))
          (bus_data events))%list
    /\ published s' = published s
    /\ sender_endpoint_ s' = sender_endpoint_ s
    /\ receive_pending s' = receive_pending s.
Proof.
  revert s; induction events as [|e events IH]; intros s Hq.
  - exists s. cbn. rewrite app_nil_r. auto.
  - cbn [forallb] in Hq. apply andb_true_iff in Hq. destruct Hq as [He Hq].
    destruct e as [payload from | error | error n | data];
      try discriminate; cbn [run step bind bus_data map].
    + destruct (IH (handleSend s error n) Hq) as (s' & Hr & H1 & H2 & H3 & H4).
      exists s'. split; [exact Hr|]. rewrite H1, H2, H3, H4.
      unfold handleSend. destruct ((error =? 0)%Z && (0 <? n)%nat); cbn; auto.
    + destruct (IH (listenerCallback write s data) Hq)
        as (s' & Hr & H1 & H2 & H3 & H4).
      exists s'. split; [exact Hr|]. rewrite H1, H2, H3, H4. cbn.
      rewrite <- app_assoc. auto.
Qed.

(** X10.  A receive that completes with a socket error ends the receive
    loop: [handleReceive] logs the error and does not start a receive, and
    whatever events follow, no datagram is read any more (nothing is
    published, the endpoint stays). *)
Theorem receive_error_stops_receiving
    (s : UdpServer) (error : Z) (events : list event) :
  receive_pending s = true ->
  error <> 0%Z ->
  exists s1,
    fail_receive parse s error = Ok s1
    /\ receive_pending s1 = false
    /\ log s1 = (log s ++ [ErrorReceiving error])%list
    /\ published s1 = published s
    /\ sender_endpoint_ s1 = sender_endpoint_ s
    /\ exists s2,
         run parse write s1 events = Ok s2
         /\ receive_pending s2 = false
         /\ published s2 = published s
         /\ sender_endpoint_ s2 = sender_endpoint_ s.
Proof.
  intros Hp He. unfold fail_receive, handleReceive. rewrite Hp.
  apply Z.eqb_neq in He. rewrite He. cbn [andb].
  eexists. split; [reflexivity|]. cbn.
  repeat (split; [reflexivity|]).
  match goal with |- exists s2, run _ _ ?s1 _ = _ /\ _ =>
    destruct (run_not_pending parse write events s1 eq_refl)
      as (s2 & Hr & H1 & H2 & H3)
  end.
  exists s2. auto.
Qed.

Lemma handleReceive_same_but_log (a b : UdpServer) (error : Z) (n : nat) :
  same_but_log a b ->
  agree_but_log (handleReceive parse a error n) (handleReceive parse b error n).
Proof.
  destruct a as [ea da pa ua sa la], b as [eb db pb ub sb lb].
  unfold same_but_log. cbn. intros (-> & -> & -> & -> & ->).
  unfold handleReceive. cbn [data_].
  destruct ((error =? 0)%Z && (0 <? n)%nat); [|now cbv].
  destruct (parse (take n db)) as [json|]; cbn [bind]; [|now cbv].
  destruct (has_members json) as [[]|]; cbn [bind];
    [| now cbv | reflexivity].
  destruct (member_string json "op") as [o|]; cbn [bind]; [|reflexivity].
  destruct (member_string json "topic") as [t|]; cbn [bind]; [|reflexivity].
  destruct (member_string json "type") as [ty|]; cbn [bind]; [|reflexivity].
  destruct (route_matches o t ty); [|now cbv].
  destruct (msg_data_string json) as [d|]; cbn [bind]; [|reflexivity].
  now cbv.
Qed.

Lemma step_same_but_log (a b : UdpServer) (e : event) :
  same_but_log a b ->
  agree_but_log (step parse write a e) (step parse write b e).
Proof.
  intros H. pose proof H as (He & Hd & Hp & Hu & Hs).
  destruct e as [payload from | error | error n | data]; cbn [step].
  - unfold deliver. rewrite Hp. destruct (receive_pending b); [|exact H].
    apply handleReceive_same_but_log. unfold same_but_log. cbn.
    rewrite Hd, Hu, Hs. auto.
  - unfold fail_receive. rewrite Hp. destruct (receive_pending b); [|exact H].
    apply handleReceive_same_but_log. unfold same_but_log. cbn. auto.
  - unfold handleSend.
    destruct ((error =? 0)%Z && (0 <? n)%nat); exact H.
  - unfold agree_but_log, same_but_log. cbn. rewrite He, Hs. auto.
Qed.

(** X11.  The completions of sends only write the log: a run and the same
    run without its [SendDone] events throw the same exception or end in
    states with the same endpoint, buffer, outstanding receive, published
    messages and sends. *)
Theorem send_completions_only_log (events : list event) (s : UdpServer) :
  agree_but_log (run parse write s events)
    (run parse write s (without_send_done events)).
Proof.
  assert (forall a b, same_but_log a b ->
            agree_but_log (run parse write a events)
              (run parse write b (without_send_done events))) as H.
  { induction events as [|e events IH]; intros a b Hab; [exact Hab|].
    assert (agree_but_log (run parse write a (e :: events))
              (run parse write b (e :: without_send_done events))) as Hkeep.
    { cbn [run]. pose proof (step_same_but_log a b e Hab) as Hstep.
      destruct (step parse write a e) as [a'|ea],
               (step parse write b e) as [b'|eb];
        cbn in Hstep; try contradiction; cbn [bind].
      - now apply IH.
      - exact Hstep. }
    destruct e as [payload from | error | error n | data];
      cbn [without_send_done]; try exact Hkeep.
    cbn [run step bind]. apply IH.
    unfold handleSend. destruct ((error =? 0)%Z && (0 <? n)%nat); exact Hab. }
  apply H. unfold same_but_log. auto.
Qed.

Lemma last_cons {A : Type} (a d : A) (l : list A) :
  last (a :: l) d = last l a.
Proof.
  revert a d; induction l as [|b l IH]; intros a d; [reflexivity|].
  change (last (a :: b :: l) d) with (last (b :: l) d).
  now rewrite (IH b d), (IH b a).
Qed.

(** X13.  As long as no datagram is empty, no receive fails and no handler
    throws, the receive loop goes on and the endpoint follows the
    datagrams: after the run a receive is outstanding and
    [sender_endpoint_] is the sender of the last datagram of the run (the
    endpoint the object started with when there was none). *)
Theorem healthy_run_tracks_last_sender
    (events : list event) (s s' : UdpServer) :
  receive_pending s = true ->
  forallb keeps_receiving events = true ->
  run parse write s events = Ok s' ->
  receive_pending s' = true
  /\ sender_endpoint_ s' = last (senders events) (sender_endpoint_ s).
Proof.
  revert s; induction events as [|e events IH]; intros s Hp Hk; cbn [run].
  - intros [= <-]. auto.
  - cbn [forallb] in Hk. apply andb_true_iff in Hk. destruct Hk as [He Hk].
    destruct (step parse write s e) as [s1|] eqn:E; cbn [bind];
      [|discriminate].
    intros H.
    destruct e as [[|c payload] from | error | error n | data];
      try discriminate; cbn [step senders] in *.
    + unfold deliver in E. rewrite Hp in E. cbv zeta in E.
      apply handleReceive_cases in E.
      destruct E as [[Hc _] | [_ E]].
      { cbn [String.length] in Hc. unfold max_length in Hc.
        rewrite Nat.min_comm in Hc. discriminate. }
      assert (receive_pending s1 = true /\ sender_endpoint_ s1 = from)
        as [Hp1 He1].
      { destruct E as [-> | (env & _ & _ & ->)]; auto. }
      destruct (IH s1 Hp1 Hk H) as [H1 H2].
      split; [exact H1|]. rewrite H2, He1, last_cons. reflexivity.
    + injection E as <-.
      assert (receive_pending (handleSend s error n) = true
              /\ sender_endpoint_ (handleSend s error n) = sender_endpoint_ s)
        as [Hp1 He1].
      { unfold handleSend.
        destruct ((error =? 0)%Z && (0 <? n)%nat); auto. }
      destruct (IH _ Hp1 Hk H) as [H1 H2].
      split; [exact H1|]. now rewrite H2, He1.
    + injection E as <-.
      destruct (IH (listenerCallback write s data) Hp Hk H) as [H1 H2]. auto.
Qed.

End Runs.

(** X12.  The bytes sent for a bus message whose data has no quote,
    backslash or control character are, exactly, the object with the
    members in the order [msg], [op], [topic], [type], the data between
    quotes as it is, no blank, and a line feed at the end. *)
Theorem listener_wire_text (s : UdpServer) (data : string) :
  FastWriter.needsEscape data = false ->
  sent (listenerCallback FastWriter.write s data) =
  (sent s ++
   [((json_text "{'msg':{'data':'" ++ data
      ++ json_text
           "'},'op':'publish','topic':'/listener','type':'std_msgs/String'}"
      ++ String char_n "")%string,
     sender_endpoint_ s)])%list.
Proof.
  intros H. unfold listenerCallback, sendPacket, ros_log, encode.
  cbn [sent sender_endpoint_].
  do 3 f_equal. unfold FastWriter.write.
  rewrite Codec.writeValue_envelope.
  rewrite (Codec.valueToQuotedString_eq data), (Codec.escapeAll_plain data H).
  cbn. rewrite ?append_assoc. cbn. reflexivity.
Qed.

(** ** Instances of the properties of runs *)

Lemma deliver_stateless_scenario1 :
  match deliver (Reader.parse no_double) server0 scenario1 peerB,
        deliver (Reader.parse no_double) after_relay scenario1 peerB with
  | Ok a, Ok b =>
      exists pub lg,
        published a = (published server0 ++ pub)%list
        /\ published b = (published after_relay ++ pub)%list
        /\ List.length pub <= 1
        /\ log a = (log server0 ++ lg)%list
        /\ log b = (log after_relay ++ lg)%list
        /\ receive_pending a = receive_pending b
        /\ sender_endpoint_ a = peerB /\ sender_endpoint_ b = peerB
        /\ sent a = sent server0 /\ sent b = sent after_relay
  | Throw e1, Throw e2 => e1 = e2
  | _, _ => False
  end.
Proof.
  apply (deliver_stateless (Reader.parse no_double) server0 after_relay
           scenario1 peerB); reflexivity.
Defined.

Lemma non_object_throws_array :
  handleReceive (Reader.parse no_double) (received "[1]" peerA) 0 3 =
  Throw (LogicError
    "in Json::Value::find(key, end, found): requires objectValue or nullValue").
Proof.
  apply (non_object_throws (Reader.parse no_double) (received "[1]" peerA) 3
           (arrayValue [intValue 1])).
  - lia.
  - vm_compute. reflexivity.
  - discriminate.
  - intros m. discriminate.
Defined.

Lemma routed_scalar_msg_throws_msg_string :
  handleReceive (Reader.parse no_double) (received msg_string peerA) 0 70 =
  Throw (LogicError
    "in Json::Value::resolveReference(key, end): requires objectValue").
Proof.
  apply (routed_scalar_msg_throws (Reader.parse no_double)
           (received msg_string peerA) 70
           [("msg", stringValue "x"); ("op", stringValue "publish");
            ("topic", stringValue "/chatter");
            ("type", stringValue "std_msgs/String")]
           (stringValue "x")).
  - lia.
  - vm_compute. reflexivity.
  - reflexivity.
  - reflexivity.
  - reflexivity.
  - reflexivity.
  - discriminate.
  - intros members. discriminate.
Defined.

Lemma well_typed_never_throws_data_number :
  exists s',
    handleReceive (Reader.parse no_double) (received data_number peerA) 0 77
    = Ok s'.
Proof.
  apply (well_typed_never_throws (Reader.parse no_double)
           (received data_number peerA) 77
           [("msg", objectValue [("data", intValue 5)]);
            ("op", stringValue "publish");
            ("topic", stringValue "/chatter");
            ("type", stringValue "std_msgs/String")]).
  - vm_compute. reflexivity.
  - intros key v [<- | [<- | [<- | []]]]; cbn; intros [= <-]; reflexivity.
  - cbn. intros v [= <-]. right.
    exists [("data", intValue 5)]. split; [reflexivity|].
    cbn. intros d [= <-]. reflexivity.
Defined.

Lemma run_sends_listener_envelopes_relay :
  exists targets,
    List.length targets = List.length (bus_data relay_events)
    /\ sent after_relay =
       (sent server0 ++
        combine (map (encode FastWriter.write "/listener" "std_msgs/String")
                   (bus_data relay_events)) targets)%list
    /\ Forall (fun t => t = sender_endpoint_ server0
                        \/ In t (senders relay_events))
         targets.
Proof.
  apply (run_sends_listener_envelopes (Reader.parse no_double)
           FastWriter.write relay_events server0 after_relay).
  vm_compute. reflexivity.
Defined.

Lemma run_publishes_routed_data_relay :
  exists pub,
    published after_relay = (published server0 ++ pub)%list
    /\ List.length pub <= List.length (senders relay_events)
    /\ Forall
         (fun data =>
            exists payload from env,
              In (Datagram payload from) relay_events
              /\ decode (Reader.parse no_double) (take max_length payload)
                 = Ok (inr env)
              /\ route_matches (op env) (topic env) (type env) = true
              /\ payload_data env = data)
         pub.
Proof.
  apply (run_publishes_routed_data (Reader.parse no_double)
           FastWriter.write relay_events server0 after_relay).
  vm_compute. reflexivity.
Defined.

Lemma quiet_run_relays_two :
  exists s',
    run (Reader.parse no_double) FastWriter.write after_relay
      [BusMessage "a"; SendDone 0 83; BusMessage "b"] = Ok s'
    /\ sent s' =
       (sent after_relay ++
        map (fun data =>
               (encode FastWriter.write "/listener" "std_msgs/String" data,
                sender_endpoint_ after_relay))
          (bus_data [BusMessage "a"; SendDone 0 83; BusMessage "b"]))%list
    /\ published s' = published after_relay
    /\ sender_endpoint_ s' = sender_endpoint_ after_relay
    /\ receive_pending s' = receive_pending after_relay.
Proof.
  apply (quiet_run_relays_in_order (Reader.parse no_double) FastWriter.write
           [BusMessage "a"; SendDone 0 83; BusMessage "b"] after_relay).
  reflexivity.
Defined.

Lemma receive_error_then_scenario1 :
  exists s1,
    fail_receive (Reader.parse no_double) after_relay 125 = Ok s1
    /\ receive_pending s1 = false
    /\ log s1 = (log after_relay ++ [ErrorReceiving 125])%list
    /\ published s1 = published after_relay
    /\ sender_endpoint_ s1 = sender_endpoint_ after_relay
    /\ exists s2,
         run (Reader.parse no_double) FastWriter.write s1
           [Datagram scenario1 peerB; BusMessage "world"] = Ok s2
         /\ receive_pending s2 = false
         /\ published s2 = published after_relay
         /\ sender_endpoint_ s2 = sender_endpoint_ after_relay.
Proof.
  apply (receive_error_stops_receiving (Reader.parse no_double)
           FastWriter.write after_relay 125
           [Datagram scenario1 peerB; BusMessage "world"]).
  - reflexivity.
  - discriminate.
Defined.

Lemma listener_wire_text_world :
  sent (listenerCallback FastWriter.write server0 "world") =
  [((json_text "{'msg':{'data':'" ++ "world"
     ++ json_text
          "'},'op':'publish','topic':'/listener','type':'std_msgs/String'}"
     ++ String char_n "")%string,
    default_endpoint)].
Proof.
  apply (listener_wire_text server0 "world"). reflexivity.
Defined.

Lemma healthy_run_relay :
  receive_pending after_relay = true
  /\ sender_endpoint_ after_relay =
     last (senders relay_events) (sender_endpoint_ server0).
Proof.
  apply (healthy_run_tracks_last_sender (Reader.parse no_double)
           FastWriter.write relay_events server0 after_relay).
  - reflexivity.
  - reflexivity.
  - vm_compute. reflexivity.
Defined.
